(** * E-commerce customer satisfaction: EDA helper scripts

    A shallow embedding of the three scripts under
    [ecommerce-customer-satisfaction/scripts]:

    - [data_loader.py]  : [load_data]
    - [eda_pipeline.py] : class [EDA_Pipeline] (constructor, [data_overview],
                          [univariate_numerical], [univariate_categorical])
    - [utils.py]        : [cast_data_types]

    The scripts are glue over pandas.  The part of pandas they rely on is
    modelled in [Module Frame]: a frame is an ordered list of labelled
    series, a series is a dtype tag and a list of cells.  Floating point
    numbers are idealised as exact rationals, NaN as [None]; text that is
    printed is modelled by the data it carries, plotting is left out. *)

From Stdlib Require Import QArith Qround Lqa Ascii String.
From stdpp Require Import base decidable option list strings sorting.

Local Open Scope Z_scope.

(** ** Exceptions and fallible computations *)

Inductive exn : Type :=
  | FileNotFoundError (msg : string)
  | EmptyDataError
  | ParserError (msg : string)
  | KeyError (label : string)
  | ValueError (msg : string)
  | ZeroDivisionError
  | OtherError (msg : string).

Inductive result (A : Type) : Type :=
  | Ok (a : A)
  | Raise (e : exn).
Arguments Ok {A} a.
Arguments Raise {A} e.

Definition bind {A B} (r : result A) (k : A -> result B) : result B :=
  match r with
  | Ok a => k a
  | Raise e => Raise e
  end.

Notation "x <- r ;; k" := (bind r (fun x => k))
  (at level 100, r at next level, right associativity).

Fixpoint mapM {A B} (f : A -> result B) (l : list A) : result (list B) :=
  match l with
  | [] => Ok []
  | a :: l' => b <- f a ;; bs <- mapM f l' ;; Ok (b :: bs)
  end.

(** ** The pandas fragment used by the scripts *)

Module Frame.

Inductive dtype : Type :=
  | DInt64 | DFloat64 | DInt32 | DFloat32 | DBool
  | DObject | DString | DCategory | DDatetime64.

#[global] Instance dtype_eq_dec : EqDecision dtype.
Proof. solve_decision. Defined.

(** A cell of a series.  [Null] stands for None, NaN and NaT alike. *)
Inductive cell : Type :=
  | Null
  | Num (q : Q)
  | Str (s : string)
  | Date (t : Z).

Record Series : Type := mkSeries { dtype_of : dtype; values : list cell }.

(** Columns in declaration order; labels are the first components. *)
Definition DataFrame : Type := list (string * Series).

Definition columns (df : DataFrame) : list string := df.*1.

(** [len(df)]: the number of rows. *)
Definition len (df : DataFrame) : nat :=
  match df with
  | [] => 0%nat
  | (_, s) :: _ => length (values s)
  end.

(** [df[col]] *)
Fixpoint getitem (df : DataFrame) (col : string) : result Series :=
  match df with
  | [] => Raise (KeyError col)
  | (c, s) :: df' => if decide (c = col) then Ok s else getitem df' col
  end.

(** [df[col] = s]: replaces the column labelled [col], or appends it. *)
Fixpoint setitem (df : DataFrame) (col : string) (s : Series) : DataFrame :=
  match df with
  | [] => [(col, s)]
  | (c, s0) :: df' =>
      if decide (c = col) then (c, s) :: df' else (c, s0) :: setitem df' col s
  end.

(** *** dtype probes *)

Definition is_datetime64_any_dtype (s : Series) : bool :=
  bool_decide (dtype_of s = DDatetime64).

Definition is_categorical_dtype (s : Series) : bool :=
  bool_decide (dtype_of s = DCategory).

Definition is_str (c : cell) : bool :=
  match c with Str _ => true | _ => false end.

(** [pd.api.types.is_string_dtype]: the string extension dtype, or an
    object array all of whose elements are strings. *)
Definition is_string_dtype (s : Series) : bool :=
  match dtype_of s with
  | DString => true
  | DObject => forallb is_str (values s)
  | _ => false
  end.

(** [s.dtype in ['int64', 'float64']] *)
Definition is_int64_or_float64 (s : Series) : bool :=
  bool_decide (dtype_of s = DInt64) || bool_decide (dtype_of s = DFloat64).

(** [df.select_dtypes(include=['int64', 'float64']).columns.tolist()] *)
Definition select_dtypes_int64_float64 (df : DataFrame) : list string :=
  (List.filter (fun c => is_int64_or_float64 c.2) df).*1.

(** *** Cells: nulls and equality *)

Definition isnull (c : cell) : bool :=
  match c with Null => true | _ => false end.

Definition dropna (l : list cell) : list cell :=
  List.filter (fun c => negb (isnull c)) l.

Definition cell_eqb (a b : cell) : bool :=
  match a, b with
  | Null, Null => true
  | Num x, Num y => Qeq_bool x y
  | Str x, Str y => bool_decide (x = y)
  | Date x, Date y => bool_decide (x = y)
  | _, _ => false
  end.

(** *** Frequencies *)

(** The distinct values of a list, in order of first appearance. *)
Fixpoint uniq (l : list cell) : list cell :=
  match l with
  | [] => []
  | c :: l' => c :: List.filter (fun x => negb (cell_eqb c x)) (uniq l')
  end.

(** The number of cells of [l] equal to [v]. *)
Definition occ (v : cell) (l : list cell) : nat :=
  length (List.filter (cell_eqb v) l).

(** Each distinct value with the number of cells holding it. *)
Definition frequencies (l : list cell) : list (cell * nat) :=
  map (fun v => (v, occ v l)) (uniq l).

(** [s.nunique()]: number of distinct non-null values. *)
Definition nunique (s : Series) : nat := length (uniq (dropna (values s))).

Definition count_ge (a b : cell * nat) : Prop := (b.2 <= a.2)%nat.

#[global] Instance count_ge_dec a b : Decision (count_ge a b).
Proof. unfold count_ge. apply _. Defined.

(** [s.value_counts()]: the frequencies of the non-null values, most
    frequent first.  (For a category dtype pandas also lists the declared
    categories that do not occur, with count 0; a series here has no
    declared categories beyond its values.) *)
Definition value_counts (s : Series) : list (cell * nat) :=
  merge_sort count_ge (frequencies (dropna (values s))).

(** [.head(n)] *)
Definition head {A} (n : nat) (l : list A) : list A := take n l.

(** [s.isnull().sum()] *)
Definition isnull_sum (s : Series) : nat :=
  length (List.filter isnull (values s)).


(** *** Numbers

    A float is a rational or NaN ([None]).  Arithmetic propagates NaN and
    every comparison with NaN is false, as in IEEE 754. *)

Definition flt : Type := option Q.

Definition fadd (a b : flt) : flt :=
  match a, b with Some x, Some y => Some (x + y)%Q | _, _ => None end.

Definition fsub (a b : flt) : flt :=
  match a, b with Some x, Some y => Some (x - y)%Q | _, _ => None end.

Definition fmul (a b : flt) : flt :=
  match a, b with Some x, Some y => Some (x * y)%Q | _, _ => None end.

Definition Qlt_bool (x y : Q) : bool := negb (Qle_bool y x).

(** [cell < bound] and [cell > bound] for a cell of a numeric series. *)
Definition cell_lt (c : cell) (bound : flt) : bool :=
  match c, bound with
  | Num v, Some b => Qlt_bool v b
  | _, _ => false
  end.

Definition cell_gt (c : cell) (bound : flt) : bool :=
  match c, bound with
  | Num v, Some b => Qlt_bool b v
  | _, _ => false
  end.

Definition nums (l : list cell) : list Q :=
  omap (fun c => match c with Num q => Some q | _ => None end) l.

#[global] Instance Qle_dec (x y : Q) : Decision (x <= y)%Q.
Proof.
  destruct (Qlt_le_dec y x) as [H | H].
  - right. apply Qlt_not_le, H.
  - left. exact H.
Defined.

(** [s.quantile(q)] with pandas' default linear interpolation: over the
    sorted non-null values [a] of length [n], at position [q * (n - 1)],
    interpolating between the two neighbours; NaN for an empty series. *)
Definition quantile (s : Series) (q : Q) : flt :=
  let a := merge_sort Qle (nums (values s)) in
  match a with
  | [] => None
  | a0 :: _ =>
      let n := length a in
      let pos := (q * inject_Z (Z.of_nat (n - 1)))%Q in
      let lo := Z.to_nat (Qfloor pos) in
      let hi := Nat.min (S lo) (n - 1) in
      let frac := (pos - inject_Z (Qfloor pos))%Q in
      let x := nth lo a a0 in
      let y := nth hi a a0 in
      Some (x + (y - x) * frac)%Q
  end.

(** Rounding to the nearest integer, ties to even. *)
Definition round_half_even (x : Q) : Z :=
  let f := Qfloor x in
  let r := (x - inject_Z f)%Q in
  match (r ?= 1 # 2)%Q with
  | Lt => f
  | Gt => f + 1
  | Eq => if Z.even f then f else f + 1
  end.

(** [round(x, 2)] and the [:.2f] format. *)
Definition round2 (x : Q) : Q :=
  (inject_Z (round_half_even (x * 100)) / 100)%Q.

(** [k / n * 100] for two counts, [n] nonzero. *)
Definition pct (k n : nat) : Q :=
  (inject_Z (Z.of_nat k) / inject_Z (Z.of_nat n) * 100)%Q.

(** *** Rows and duplicates *)

Definition row (df : DataFrame) (i : nat) : list cell :=
  map (fun c => nth i (values c.2) Null) df.

Definition rows (df : DataFrame) : list (list cell) :=
  map (row df) (seq 0 (len df)).

Fixpoint row_eqb (r1 r2 : list cell) : bool :=
  match r1, r2 with
  | [], [] => true
  | a :: r1', b :: r2' => cell_eqb a b && row_eqb r1' r2'
  | _, _ => false
  end.

(** [df.duplicated()] with the default [keep='first']: a row is marked
    when an equal row occurs before it. *)
Fixpoint duplicated_from (seen rs : list (list cell)) : list bool :=
  match rs with
  | [] => []
  | r :: rs' => existsb (row_eqb r) seen :: duplicated_from (seen ++ [r]) rs'
  end.

Definition duplicated (df : DataFrame) : list bool :=
  duplicated_from [] (rows df).

Definition count_true (m : list bool) : nat := length (List.filter id m).

(** *** Datetime parsing

    [pd.to_datetime(s, errors='raise')].  The parser itself belongs to
    pandas and is a parameter: [parse_date c] is the timestamp of a
    non-null cell, or [None] when the cell is not a date.  Nulls become
    NaT; one cell that does not parse makes the whole call raise. *)

Section Parsing.

Variable parse_date : cell -> option Z.

Definition parse_cell (c : cell) : result cell :=
  match c with
  | Null => Ok Null
  | _ =>
      match parse_date c with
      | Some t => Ok (Date t)
      | None => Raise (ValueError "Unknown datetime string format")
      end
  end.

Definition to_datetime (s : Series) : result Series :=
  vs <- mapM parse_cell (values s) ;;
  Ok (mkSeries DDatetime64 vs).

End Parsing.

Definition dtype_name (d : dtype) : string :=
  match d with
  | DInt64 => "int64"
  | DFloat64 => "float64"
  | DInt32 => "int32"
  | DFloat32 => "float32"
  | DBool => "bool"
  | DObject => "object"
  | DString => "string"
  | DCategory => "category"
  | DDatetime64 => "datetime64[ns]"
  end.

(** *** Integer-valued series

    The [.dt] accessors yield series of integers; the helpers below are
    the operations the scripts apply to them. *)

(** The timestamps of the non-null cells of a datetime series. *)
Definition timestamps (s : Series) : list Z :=
  omap (fun c => match c with Date t => Some t | _ => None end) (values s).

(** [x.min()] and [x.max()]; [None] (NaT) when there is no value. *)
Definition zmin (l : list Z) : option Z :=
  match l with
  | [] => None
  | x :: l' => Some (fold_left Z.min l' x)
  end.

Definition zmax (l : list Z) : option Z :=
  match l with
  | [] => None
  | x :: l' => Some (fold_left Z.max l' x)
  end.

(** The number of elements of [l] equal to [v]. *)
Definition count_of (v : Z) (l : list Z) : nat :=
  length (List.filter (Z.eqb v) l).

(** [x.value_counts().sort_index()]: each distinct value with its count,
    by ascending value. *)
Definition counts_by_index (l : list Z) : list (Z * nat) :=
  map (fun v => (v, count_of v l)) (merge_sort Z.le (remove_dups l)).

(** [x.mode()]: the most frequent values, ascending. *)
Definition mode (l : list Z) : list Z :=
  let cs := counts_by_index l in
  (List.filter (fun vc => Nat.eqb vc.2 (max_list cs.*2)) cs).*1.

(** [l[i]] on a Python list: a negative index counts from the end. *)
Definition py_index {A} (l : list A) (i : Z) : result A :=
  let n := Z.of_nat (length l) in
  let j := if decide (i < 0) then i + n else i in
  if decide (0 <= j < n) then
    match l !! Z.to_nat j with
    | Some a => Ok a
    | None => Raise (OtherError "list index out of range")
    end
  else Raise (OtherError "list index out of range").

(** [l[:n]] on a Python list: a negative bound counts from the end. *)
Definition py_slice_to {A} (n : Z) (l : list A) : list A :=
  if decide (0 <= n) then take (Z.to_nat n) l
  else take (length l - Z.to_nat (- n)) l.

End Frame.

(** ** eda_pipeline.py *)

Module EdaPipeline.
Import Frame.

(** The attributes of an [EDA_Pipeline] object. *)
Record EDA_Pipeline : Type := mkEDA {
  df : DataFrame;
  target_col : option string;
  categorical_threshold : Z;
  high_cardinality_threshold : Z;
  datetime_cols : list string;
  numerical_cols : list string;
  categorical_cols : list string;
  high_cardinality_cols : list string }.

(** [s.dtype == 'object' or pd.api.types.is_string_dtype(s)] *)
Definition is_object_or_string (s : Series) : bool :=
  bool_decide (dtype_of s = DObject) || is_string_dtype s.

(** [col == target_col] *)
Definition is_target (target : option string) (col : string) : bool :=
  bool_decide (target = Some col).

(** [l.remove(x)]: drops the first occurrence. *)
Fixpoint remove_first (x : string) (l : list string) : list string :=
  match l with
  | [] => []
  | y :: l' => if decide (y = x) then l' else y :: remove_first x l'
  end.

Section Init.

Variable parse_date : cell -> option Z.

(** Body of the first loop of [__init__] (lines 31-41).  The state is
    [self.df] and [self.datetime_cols]; [s] is [df[col]], read from the
    constructor's argument.  Column labels of a frame are unique, so the
    loop over [df.columns] with [df[col]] is a loop over the labelled
    series. *)
Definition detect_datetime_step
    (st : DataFrame * list string) (c : string * Series) : DataFrame * list string :=
  let '(self_df, dts) := st in
  let '(col, s) := c in
  if is_datetime64_any_dtype s then (self_df, dts ++ [col])
  else if is_object_or_string s then
    match to_datetime parse_date s with
    | Ok parsed => (setitem self_df col parsed, dts ++ [col])
    | Raise _ => (self_df, dts)
    end
  else (self_df, dts).

(** Body of the second loop (lines 57-78); the state is
    [self.categorical_cols] and [self.high_cardinality_cols]. *)
Definition classify_step (target : option string) (dts : list string)
    (categorical_threshold high_cardinality_threshold : Z)
    (st : list string * list string) (c : string * Series)
    : list string * list string :=
  let '(cats, highs) := st in
  let '(col, s) := c in
  if is_target target col || bool_decide (col ∈ dts) then (cats, highs)
  else
    let n_unique := Z.of_nat (nunique s) in
    let is_low_cardinality_numeric :=
      is_int64_or_float64 s && bool_decide (n_unique <= categorical_threshold) in
    if is_categorical_dtype s || is_object_or_string s || is_low_cardinality_numeric
    then
      if bool_decide (n_unique <= high_cardinality_threshold)
      then (cats ++ [col], highs)
      else (cats, highs ++ [col])
    else (cats, highs).

(** The first loop, started on the copy [self.df = df.copy()] and the
    empty [self.datetime_cols]. *)
Definition detect_datetime (df0 : DataFrame) : DataFrame * list string :=
  fold_left detect_datetime_step df0 (df0, []).

(** Lines 44-51: the int64 and float64 columns, without the target and
    without the datetime columns. *)
Definition detect_numerical (df0 : DataFrame) (target : option string)
    (dts : list string) : list string :=
  let nums0 := select_dtypes_int64_float64 df0 in
  let nums1 :=
    match target with
    | Some t => if bool_decide (t ∈ nums0) then remove_first t nums0 else nums0
    | None => nums0
    end in
  List.filter (fun col => negb (bool_decide (col ∈ dts))) nums1.

(** The second loop, started on two empty lists. *)
Definition detect_categorical (df0 : DataFrame) (target : option string)
    (dts : list string) (categorical_threshold high_cardinality_threshold : Z)
    : list string * list string :=
  fold_left
    (classify_step target dts categorical_threshold high_cardinality_threshold)
    df0 ([], []).

(** [EDA_Pipeline.__init__(df, target_col, categorical_threshold,
    high_cardinality_threshold)] *)
Definition __init__ (df0 : DataFrame) (target : option string)
    (categorical_threshold high_cardinality_threshold : Z) : EDA_Pipeline :=
  let '(self_df, dts) := detect_datetime df0 in
  let nums := detect_numerical df0 target dts in
  let '(cats, highs) :=
    detect_categorical df0 target dts
      categorical_threshold high_cardinality_threshold in
  mkEDA self_df target categorical_threshold high_cardinality_threshold
        dts nums cats highs.

End Init.

(** *** data_overview *)

Record Overview : Type := mkOverview {
  ov_rows : nat;
  ov_cols : nat;
  (** the missing-value table (label, Missing, Percentage), or [None] for
      the line "No missing values found!" *)
  ov_missing : option (list (string * nat * Q));
  ov_duplicates : nat;
  ov_duplicates_pct : flt }.

Definition missing_ge (a b : string * nat * Q) : Prop := (b.1.2 <= a.1.2)%nat.

#[global] Instance missing_ge_dec a b : Decision (missing_ge a b).
Proof. unfold missing_ge. apply _. Defined.

Definition data_overview (self : EDA_Pipeline) : Overview :=
  let n := len (df self) in
  let missing := map (fun c => (c.1, isnull_sum c.2)) (df self) in
  let missing_table :=
    if bool_decide (0 < sum_list missing.*2)%nat then
      let missing_pct := map (fun m => (m.1, m.2, round2 (pct m.2 n))) missing in
      Some (merge_sort missing_ge
              (List.filter (fun m => bool_decide (0 < m.1.2)%nat) missing_pct))
    else None in
  let duplicates := count_true (duplicated (df self)) in
  mkOverview n (length (df self)) missing_table duplicates
    (if decide (n = 0%nat) then None else Some (round2 (pct duplicates n))).

(** *** univariate_numerical *)

(** What the section prints for a column: of [describe()] the count and
    the mean (the standard deviation, the skewness and the kurtosis need
    roots and are left out), the quartiles, and the outlier line. *)
Record NumericalProfile : Type := mkNumericalProfile {
  np_col : string;
  np_count : nat;
  np_mean : flt;
  np_Q1 : flt;
  np_Q3 : flt;
  np_outliers : nat;
  np_outliers_pct : Q }.

Definition mean (l : list Q) : flt :=
  match l with
  | [] => None
  | _ => Some (fold_right Qplus 0%Q l / inject_Z (Z.of_nat (length l)))%Q
  end.

(** The boolean mask of line 248:
    [(s < Q1 - 1.5*IQR) | (s > Q3 + 1.5*IQR)]. *)
Definition outlier_mask (s : Series) (Q1 Q3 : flt) : list bool :=
  let IQR := fsub Q3 Q1 in
  map (fun c => cell_lt c (fsub Q1 (fmul (Some (3 # 2)) IQR))
                || cell_gt c (fadd Q3 (fmul (Some (3 # 2)) IQR)))
      (values s).

(** Body of the loop of [univariate_numerical] (lines 238-249). *)
Definition numerical_profile (self : EDA_Pipeline) (col : string)
    : result NumericalProfile :=
  s <- getitem (df self) col ;;
  let Q1 := quantile s (1 # 4) in
  let Q3 := quantile s (3 # 4) in
  let outliers := count_true (outlier_mask s Q1 Q3) in
  if decide (len (df self) = 0%nat) then Raise ZeroDivisionError
  else
    Ok (mkNumericalProfile col (length (nums (values s))) (mean (nums (values s)))
          Q1 Q3 outliers (pct outliers (len (df self)))).

Definition univariate_numerical (self : EDA_Pipeline)
    : result (list NumericalProfile) :=
  mapM (numerical_profile self) (numerical_cols self).

(** *** univariate_categorical *)

Record CategoricalProfile : Type := mkCategoricalProfile {
  cp_col : string;
  cp_dtype : dtype;
  cp_n_unique : nat;
  cp_value_counts : list (cell * nat);
  cp_value_pct : list (cell * flt) }.

Record HighCardinalityProfile : Type := mkHighCardinalityProfile {
  hp_col : string;
  hp_n_unique : nat;
  hp_total : nat;
  hp_ratio : Q;
  hp_top_5 : list (cell * nat);
  hp_top_5_pct : list (cell * flt) }.

(** [(counts / len(self.df) * 100).round(2)]; a series divided by zero
    does not raise. *)
Definition pct_of_rows (n : nat) (counts : list (cell * nat)) : list (cell * flt) :=
  map (fun vc => (vc.1, if decide (n = 0%nat) then None else Some (round2 (pct vc.2 n))))
      counts.

(** Body of the first loop of [univariate_categorical] (lines 286-299). *)
Definition categorical_profile (self : EDA_Pipeline) (col : string)
    : result CategoricalProfile :=
  s <- getitem (df self) col ;;
  Ok (mkCategoricalProfile col (dtype_of s) (nunique s) (value_counts s)
        (pct_of_rows (len (df self)) (value_counts s))).

(** Body of the second loop (lines 326-340). *)
Definition high_cardinality_profile (self : EDA_Pipeline) (col : string)
    : result HighCardinalityProfile :=
  s <- getitem (df self) col ;;
  let n_unique := nunique s in
  if decide (len (df self) = 0%nat) then Raise ZeroDivisionError
  else
    let top_5 := head 5 (value_counts s) in
    Ok (mkHighCardinalityProfile col n_unique (len (df self))
          (pct n_unique (len (df self))) top_5 (pct_of_rows (len (df self)) top_5)).

Definition univariate_categorical (self : EDA_Pipeline)
    : result (list CategoricalProfile * list HighCardinalityProfile) :=
  cats <- mapM (categorical_profile self) (categorical_cols self) ;;
  highs <- mapM (high_cardinality_profile self) (high_cardinality_cols self) ;;
  Ok (cats, highs).

(** *** univariate_datetime *)

(** What the section prints and plots for a column.  A chart is [None]
    when the section writes a text in its place. *)
Record DatetimeProfile : Type := mkDatetimeProfile {
  dp_col : string;
  dp_earliest : option Z;
  dp_latest : option Z;
  dp_range_days : option Z;
  dp_missing : nat;
  dp_missing_pct : flt;
  dp_year_chart : option (list (Z * nat));
  dp_month_bars : list nat;
  dp_dow_bars : list nat;
  dp_hour_chart : option (list (Z * nat));
  dp_quarter_bars : list nat;
  dp_timeline : list (Z * nat);
  (** the four "Most common" lines; [None] stands for N/A, and the hour
      line is there only with a time component *)
  dp_mode_year : option Z;
  dp_mode_month : option Z;
  dp_mode_dow : option string;
  dp_mode_hour : option (option Z) }.

Definition dow_names : list string :=
  ["Mon"; "Tue"; "Wed"; "Thu"; "Fri"; "Sat"; "Sun"].

Section Datetime.

(** The calendar belongs to pandas: the [.dt] accessors of a timestamp
    and the [.days] of a difference of two timestamps are parameters. *)
Variables year month dayofweek hour quarter : Z -> Z.
Variable days : Z -> Z.

(** [(x != 0).any()] on the hours (lines 187 and 224). *)
Definition has_time_component (ts : list Z) : bool :=
  existsb (fun t => negb (hour t =? 0)) ts.

(** [[counts.get(i, 0) for i in range(first, first + n)]]
    (lines 169, 179, 198). *)
Definition bars (first : Z) (n : nat) (l : list Z) : list nat :=
  map (fun i => count_of (first + Z.of_nat i) l) (seq 0 n).

(** Body of the loop of [univariate_datetime] (lines 139-225).  The
    subtraction of line 145 and the [.dt] accessor need a datetime
    series. *)
Definition datetime_profile (self : EDA_Pipeline) (col : string)
    : result DatetimeProfile :=
  s <- getitem (df self) col ;;
  if negb (is_datetime64_any_dtype s)
  then Raise (OtherError "Can only use .dt accessor with datetimelike values")
  else
    let df_temp := timestamps s in
    let earliest := zmin df_temp in
    let latest := zmax df_temp in
    let range_days :=
      match latest, earliest with
      | Some hi, Some lo => Some (days (hi - lo))
      | _, _ => None
      end in
    let missing := isnull_sum s in
    let n := len (df self) in
    mode_dow <-
      match hd_error (mode (map dayofweek df_temp)) with
      | Some m => name <- py_index dow_names m ;; Ok (Some name)
      | None => Ok None
      end ;;
    Ok (mkDatetimeProfile col earliest latest range_days missing
          (if decide (n = 0%nat) then None else Some (round2 (pct missing n)))
          (if bool_decide (1 < length (remove_dups (map year df_temp)))%nat
           then Some (counts_by_index (map year df_temp)) else None)
          (bars 1 12 (map month df_temp))
          (bars 0 7 (map dayofweek df_temp))
          (if has_time_component df_temp
           then Some (counts_by_index (map hour df_temp)) else None)
          (bars 1 4 (map quarter df_temp))
          (counts_by_index df_temp)
          (hd_error (mode (map year df_temp)))
          (hd_error (mode (map month df_temp)))
          mode_dow
          (if has_time_component df_temp
           then Some (hd_error (mode (map hour df_temp))) else None)).

Definition univariate_datetime (self : EDA_Pipeline)
    : result (list DatetimeProfile) :=
  mapM (datetime_profile self) (datetime_cols self).

End Datetime.

(** *** correlation_matrix *)

(** The truth value of [self.target_col]: [None] and the empty string
    are false. *)
Definition truthy (target : option string) : bool :=
  match target with
  | Some t => negb (bool_decide (t = ""))
  | None => false
  end.

(** Descending order of [sort_values(ascending=False)], NaN last. *)
Definition corr_ge (a b : string * flt) : Prop :=
  match a.2, b.2 with
  | _, None => True
  | None, Some _ => False
  | Some x, Some y => (y <= x)%Q
  end.

#[global] Instance corr_ge_dec a b : Decision (corr_ge a b).
Proof. unfold corr_ge. destruct a.2, b.2; apply _. Defined.

Record CorrelationReport : Type := mkCorrelationReport {
  cr_cols : list string;
  cr_matrix : list (list flt);
  (** the "Top correlations" table, when the target is among the columns *)
  cr_target : option (list (string * flt)) }.

Section Correlation.

(** The Pearson correlation of two columns belongs to pandas. *)
Variable corr : Series -> Series -> flt.

(** Lines 505-507. *)
Definition cols_for_corr (self : EDA_Pipeline) : result (list string) :=
  match target_col self with
  | Some t =>
      if truthy (Some t) then
        s <- getitem (df self) t ;;
        if is_int64_or_float64 s then Ok (numerical_cols self ++ [t])
        else Ok (numerical_cols self)
      else Ok (numerical_cols self)
  | None => Ok (numerical_cols self)
  end.

(** [correlation_matrix()]; [None] stands for the notice "Not enough
    numerical columns for correlation matrix". *)
Definition correlation_matrix (self : EDA_Pipeline)
    : result (option CorrelationReport) :=
  if bool_decide (length (numerical_cols self) < 2)%nat then Ok None
  else
    cols <- cols_for_corr self ;;
    sub <- mapM (getitem (df self)) cols ;;
    let corr_matrix := map (fun a => map (corr a) sub) sub in
    target_corr <-
      match target_col self with
      | Some t =>
          if bool_decide (t ∈ cols) then
            st <- getitem (df self) t ;;
            Ok (Some (merge_sort corr_ge
                        (List.filter (fun r => negb (bool_decide (r.1 = t)))
                           (zip cols (map (fun a => corr a st) sub)))))
          else Ok None
      | None => Ok None
      end ;;
    Ok (Some (mkCorrelationReport cols corr_matrix target_corr)).

End Correlation.

(** *** multivariate_analysis *)

(** The pairs of the nested loop of lines 543-544: each element with
    each later one. *)
Fixpoint pairs {A} (l : list A) : list (A * A) :=
  match l with
  | [] => []
  | a :: l' => map (pair a) l' ++ pairs l'
  end.

Section Multivariate.

(** The pivot of line 547, [groupby([col1, col2])[target].mean().unstack()],
    belongs to pandas. *)
Variable Pivot : Type.
Variable pivot_mean : DataFrame -> string -> string -> string -> result Pivot.

(** [multivariate_analysis(max_combinations)]; [None] stands for the
    notice "Need target column and at least 2 categorical features". *)
Definition multivariate_analysis (self : EDA_Pipeline) (max_combinations : Z)
    : result (option (list (string * string * Pivot))) :=
  match target_col self with
  | None => Ok None
  | Some target =>
      if bool_decide (length (categorical_cols self) < 2)%nat then Ok None
      else
        let cat_cols_sample := py_slice_to max_combinations (categorical_cols self) in
        tables <- mapM (fun c => pivot <- pivot_mean (df self) c.1 c.2 target ;;
                                 Ok (c.1, c.2, pivot))
                       (pairs cat_cols_sample) ;;
        Ok (Some tables)
  end.

End Multivariate.

(** *** generate_report *)

Record Report (Pivot : Type) : Type := mkReport {
  rp_overview : Overview;
  rp_datetime : list DatetimeProfile;
  rp_numerical : list NumericalProfile;
  rp_categorical : list CategoricalProfile * list HighCardinalityProfile;
  rp_correlation : option CorrelationReport;
  (** the three sections run with a target: [None] without one *)
  rp_multivariate : option (option (list (string * string * Pivot))) }.
Arguments mkReport {Pivot}.
Arguments rp_overview {Pivot}.
Arguments rp_datetime {Pivot}.
Arguments rp_numerical {Pivot}.
Arguments rp_categorical {Pivot}.
Arguments rp_correlation {Pivot}.
Arguments rp_multivariate {Pivot}.

Section Report.

Variables year month dayofweek hour quarter : Z -> Z.
Variable days : Z -> Z.
Variable corr : Series -> Series -> flt.
Variable Pivot : Type.
Variable pivot_mean : DataFrame -> string -> string -> string -> result Pivot.

(** The two bivariate sections print and plot only; what matters to the
    report is whether they return. *)
Variables bivariate_datetime_analysis bivariate_analysis : EDA_Pipeline -> result unit.

(** [generate_report()]: the sections in source order (lines 571-580),
    the first exception ending the report. *)
Definition generate_report (self : EDA_Pipeline) : result (Report Pivot) :=
  let overview := data_overview self in
  datetime <- univariate_datetime year month dayofweek hour quarter days self ;;
  numerical <- univariate_numerical self ;;
  categorical <- univariate_categorical self ;;
  correlation <- correlation_matrix corr self ;;
  if truthy (target_col self) then
    _ <- bivariate_datetime_analysis self ;;
    _ <- bivariate_analysis self ;;
    multivariate <- multivariate_analysis Pivot pivot_mean self 5 ;;
    Ok (mkReport overview datetime numerical categorical correlation
          (Some multivariate))
  else
    Ok (mkReport overview datetime numerical categorical correlation None).

End Report.

End EdaPipeline.

(** ** data_loader.py *)

Module DataLoader.
Import Frame.

(** A Python dict with string keys, in insertion order. *)
Definition dict (V : Type) : Type := list (string * V).

(** [m.get(k)] *)
Fixpoint dict_get {V} (m : dict V) (k : string) : option V :=
  match m with
  | [] => None
  | (k0, v0) :: m' => if decide (k0 = k) then Some v0 else dict_get m' k
  end.

(** [m[k] = v]: a key that is there keeps its place, a new key goes last. *)
Fixpoint dict_set {V} (m : dict V) (k : string) (v : V) : dict V :=
  match m with
  | [] => [(k, v)]
  | (k0, v0) :: m' =>
      if decide (k0 = k) then (k0, v) :: m' else (k0, v0) :: dict_set m' k v
  end.

(** What the loader sees of the outside world: [os.path.exists] and
    [pd.read_csv]. *)
Record FileSystem : Type := mkFS {
  path_exists : string -> bool;
  read_csv : string -> result DataFrame }.

(** [os.path.join(a, b)] on POSIX. *)
Definition ends_with_slash (a : string) : bool :=
  match String.rev a with
  | String "/"%char _ => true
  | _ => false
  end.

Definition path_join (a b : string) : string :=
  match b with
  | String "/"%char _ => b
  | _ =>
      if bool_decide (a = "") || ends_with_slash a then a +:+ b
      else a +:+ "/" +:+ b
  end.

(** [str(e)] *)
Definition str_exn (e : exn) : string :=
  match e with
  | FileNotFoundError msg => msg
  | EmptyDataError => "No columns to parse from file"
  | ParserError msg => msg
  | KeyError label => "'" +:+ label +:+ "'"
  | ValueError msg => msg
  | ZeroDivisionError => "division by zero"
  | OtherError msg => msg
  end.

Definition datasets : list (string * string) :=
  [ ("customers", "olist_customers_dataset.csv");
    ("geolocation", "olist_geolocation_dataset.csv");
    ("order_items", "olist_order_items_dataset.csv");
    ("orders", "olist_orders_dataset.csv");
    ("order_payments", "olist_order_payments_dataset.csv");
    ("order_reviews", "olist_order_reviews_dataset.csv");
    ("products", "olist_products_dataset.csv");
    ("sellers", "olist_sellers_dataset.csv");
    ("product_category_name_translation", "product_category_name_translation.csv") ].

(** A printed line, by what it reports. *)
Inductive printed : Type :=
  | PLoaded (name : string) (i total n_rows : nat)
  | PError (name text : string)
  | PComplete (loaded total : nat)
  | PFailedCount (n : nat)
  | PFailed (name error : string).

(** The local variables of [load_data] that the loop updates, and what
    has been printed so far. *)
Record Locals : Type := mkLocals {
  data_frames : dict DataFrame;
  failed_datasets : list (string * string);
  stdout : list printed }.

Definition say (verbose : bool) (p : list printed) : list printed :=
  if verbose then p else [].

(** The [try] block of lines 53-63. *)
Definition try_load (fs : FileSystem) (data_path file : string) : result DataFrame :=
  let file_path := path_join data_path file in
  if negb (path_exists fs file_path)
  then Raise (FileNotFoundError ("File not found: " +:+ file))
  else read_csv fs file_path.

(** One iteration of the loop of lines 52-83, with its [except] clauses
    in source order. *)
Definition load_step (fs : FileSystem) (data_path : string) (verbose : bool)
    (total_datasets : nat) (st : Locals) (item : nat * (string * string)) : Locals :=
  let '(i, (name, file)) := item in
  match try_load fs data_path file with
  | Ok t =>
      mkLocals (dict_set (data_frames st) name t) (failed_datasets st)
        (stdout st ++ say verbose [PLoaded name i total_datasets (len t)])
  | Raise (FileNotFoundError msg) =>
      mkLocals (data_frames st) (failed_datasets st ++ [(name, msg)])
        (stdout st ++ say verbose [PError name ("File not found - " +:+ file)])
  | Raise EmptyDataError =>
      mkLocals (data_frames st) (failed_datasets st ++ [(name, "Empty CSV file")])
        (stdout st ++ say verbose [PError name "Empty CSV file"])
  | Raise (ParserError msg) =>
      mkLocals (data_frames st)
        (failed_datasets st ++ [(name, "Parse error - " +:+ msg)])
        (stdout st ++ say verbose [PError name ("Failed to parse CSV - " +:+ msg)])
  | Raise e =>
      mkLocals (data_frames st) (failed_datasets st ++ [(name, str_exn e)])
        (stdout st ++ say verbose [PError name (str_exn e)])
  end.

(** [enumerate(l, start=1)] *)
Definition enumerate1 {A} (l : list A) : list (nat * A) :=
  zip (seq 1 (length l)) l.

(** The locals when the loop is over. *)
Definition load_loop (fs : FileSystem) (data_path : string) (verbose : bool) : Locals :=
  fold_left (load_step fs data_path verbose (length datasets))
    (enumerate1 datasets) (mkLocals [] [] []).

(** The summary of lines 86-95. *)
Definition summary (verbose : bool) (st : Locals) : list printed :=
  say verbose
    (PComplete (length (data_frames st)) (length datasets)
     :: match failed_datasets st with
        | [] => []
        | fl => PFailedCount (length fl) :: map (fun f => PFailed f.1 f.2) fl
        end).

(** [load_data(data_path, verbose)]: what it returns or raises, and what
    it prints. *)
Definition load_data (fs : FileSystem) (data_path : string) (verbose : bool)
    : result (dict DataFrame) * list printed :=
  if negb (path_exists fs data_path)
  then (Raise (FileNotFoundError ("Data path not found: " +:+ data_path)), [])
  else
    let st := load_loop fs data_path verbose in
    (Ok (data_frames st), stdout st ++ summary verbose st).

(** *** get_dataset_info *)



Section Info.

(** [df.memory_usage(deep=True).sum()], in bytes, belongs to pandas. *)
Variable memory_usage : DataFrame -> Q.




End Info.

End DataLoader.

(** ** utils.py *)

Module Utils.
Import Frame.

Section Casting.

(** [pd.to_datetime] and [Series.astype] belong to pandas: the date parser
    and the cast to a named dtype are parameters. *)
Variable parse_date : cell -> option Z.
Variable astype : string -> Series -> result Series.

(** The conversion chosen by the test of line 18. *)
Definition cast_value (dtype : string) (s : Series) : result Series :=
  if decide (dtype = "datetime") then to_datetime parse_date s
  else astype dtype s.

(** Right-hand side of the assignment in the loop body (lines 18-21). *)
Definition cast_column (df : DataFrame) (column dtype : string) : result Series :=
  s <- getitem df column ;;
  cast_value dtype s.

(** The loop of lines 17-21 over [type_mapping.items()], a dict in
    insertion order.  The frame is the
    caller's object and is updated in place: the result carries the frame
    as the loop leaves it, and the exception if an iteration raised. *)
Fixpoint cast_loop (df : DataFrame) (type_mapping : list (string * string))
    : DataFrame * option exn :=
  match type_mapping with
  | [] => (df, None)
  | (column, dtype) :: rest =>
      match cast_column df column dtype with
      | Ok s => cast_loop (setitem df column s) rest
      | Raise e => (df, Some e)
      end
  end.

(** [df.dtypes.to_dict()], then one line per entry. *)
Definition dtypes (df : DataFrame) : list (string * dtype) :=
  map (fun c => (c.1, dtype_of c.2)) df.

Definition type_lines (ts : list (string * dtype)) : list string :=
  map (fun t => t.1 +:+ ": " +:+ dtype_name t.2) ts.

(** The outcome of a call: the caller's frame afterwards, the lines
    printed, and [None] for a normal return or the exception raised. *)
Record Outcome : Type := mkOutcome {
  frame_after : DataFrame;
  printed_lines : list string;
  raised : option exn }.

Definition cast_data_types (df : DataFrame) (type_mapping : list (string * string))
    : Outcome :=
  let before_types := dtypes df in
  match cast_loop df type_mapping with
  | (df', Some e) => mkOutcome df' [] (Some e)
  | (df', None) =>
      let after_types := dtypes df' in
      mkOutcome df'
        (["Data Types Before:"] ++ type_lines before_types
         ++ [String "010"%char "Data Types After:"] ++ type_lines after_types)
        None
  end.

End Casting.

End Utils.

(** ** The classifier's decisions, column by column

    The two loops of the constructor append to their lists; the tests
    below are the conditions under which an iteration appends, read off
    the loop bodies.  They are used to state what the lists contain. *)

Module Decisions.
Import Frame EdaPipeline.

Definition parses (parse_date : cell -> option Z) (s : Series) : bool :=
  match to_datetime parse_date s with Ok _ => true | Raise _ => false end.

(** The first loop appends the label. *)
Definition qualifies_datetime (parse_date : cell -> option Z) (s : Series) : bool :=
  is_datetime64_any_dtype s || (is_object_or_string s && parses parse_date s).

(** The series the first loop leaves in [self.df]. *)
Definition coerced (parse_date : cell -> option Z) (s : Series) : Series :=
  if is_datetime64_any_dtype s then s
  else if is_object_or_string s then
    match to_datetime parse_date s with Ok parsed => parsed | Raise _ => s end
  else s.

(** The [continue] of line 58. *)
Definition skipped (target : option string) (dts : list string) (col : string) : bool :=
  is_target target col || bool_decide (col ∈ dts).

(** The test of line 69. *)
Definition categorical_candidate (categorical_threshold : Z) (s : Series) : bool :=
  is_categorical_dtype s || is_object_or_string s
  || (is_int64_or_float64 s
      && bool_decide (Z.of_nat (nunique s) <= categorical_threshold)).

Definition goes_categorical (target : option string) (dts : list string)
    (ct hct : Z) (c : string * Series) : bool :=
  negb (skipped target dts c.1) && categorical_candidate ct c.2
  && bool_decide (Z.of_nat (nunique c.2) <= hct).

Definition goes_high_cardinality (target : option string) (dts : list string)
    (ct hct : Z) (c : string * Series) : bool :=
  negb (skipped target dts c.1) && categorical_candidate ct c.2
  && negb (bool_decide (Z.of_nat (nunique c.2) <= hct)).

(** No label is in both lists. *)
Definition disjoint (a b : list string) : Prop := forall col, col ∈ a -> col ∉ b.


(** Some non-null value of the series is not a date. *)
Definition has_invalid_date (parse_date : cell -> option Z) (s : Series) : Prop :=
  exists c, c ∈ values s /\ c <> Null /\ parse_date c = None.


(** [n] elements of [l] satisfy [P]. *)
Inductive counts {A} (P : A -> Prop) : list A -> nat -> Prop :=
  | counts_nil : counts P [] 0
  | counts_in x l n : P x -> counts P l n -> counts P (x :: l) (S n)
  | counts_out x l n : ~ P x -> counts P l n -> counts P (x :: l) n.


(** Every column has as many cells as the frame has rows. *)
Definition rectangular (df0 : DataFrame) : Prop :=
  Forall (fun c => length (values c.2) = len df0) df0.


End Decisions.

(** ** What the loader's loop does with one dataset *)

Module Loading.
Import Frame DataLoader.

(** The file of a dataset is in the directory. *)
Definition present (fs : FileSystem) (data_path : string) (d : string * string) : bool :=
  path_exists fs (path_join data_path d.2).

(** The file of a dataset is in the directory and [pd.read_csv] reads it. *)
Definition loads (fs : FileSystem) (data_path : string) (d : string * string) : bool :=
  match try_load fs data_path d.2 with Ok _ => true | Raise _ => false end.

(** The entry appended to [failed_datasets] for a dataset, if any. *)
Definition failure (fs : FileSystem) (data_path : string) (d : string * string)
    : option (string * string) :=
  match try_load fs data_path d.2 with
  | Ok _ => None
  | Raise (FileNotFoundError msg) => Some (d.1, msg)
  | Raise EmptyDataError => Some (d.1, "Empty CSV file")
  | Raise (ParserError msg) => Some (d.1, "Parse error - " +:+ msg)
  | Raise e => Some (d.1, str_exn e)
  end.

(** What an iteration does to [data_frames]. *)
Definition store (fs : FileSystem) (data_path : string)
    (m : dict DataFrame) (d : string * string) : dict DataFrame :=
  match try_load fs data_path d.2 with
  | Ok t => dict_set m d.1 t
  | Raise _ => m
  end.

(** The entry of the returned dict for a dataset, if its file loads. *)
Definition loaded_entry (fs : FileSystem) (data_path : string) (d : string * string)
    : option (string * DataFrame) :=
  match try_load fs data_path d.2 with
  | Ok t => Some (d.1, t)
  | Raise _ => None
  end.

(** The progress line of an iteration of the loop, when verbose. *)
Definition progress_line (fs : FileSystem) (data_path : string) (total : nat)
    (item : nat * (string * string)) : printed :=
  let '(i, (name, file)) := item in
  match try_load fs data_path file with
  | Ok t => PLoaded name i total (len t)
  | Raise (FileNotFoundError _) => PError name ("File not found - " +:+ file)
  | Raise EmptyDataError => PError name "Empty CSV file"
  | Raise (ParserError msg) => PError name ("Failed to parse CSV - " +:+ msg)
  | Raise e => PError name (str_exn e)
  end.

End Loading.

(** ** Sample inputs *)

Module Examples.
Import Frame EdaPipeline.

(** A date parser that knows two ISO dates, standing in for pandas'. *)
Definition parse_two_dates (c : cell) : option Z :=
  match c with
  | Str s =>
      if decide (s = "2024-01-01") then Some 19723
      else if decide (s = "2024-01-02") then Some 19724
      else None
  | _ => None
  end.

(** Three reviews: a score on few levels, a price, a free-text city and a
    purchase date held as text. *)
Definition reviews : DataFrame :=
  [ ("review_score", mkSeries DInt64 [Num 5; Num 4; Num 5]);
    ("price", mkSeries DFloat64 [Num (199 # 10); Num 45; Num (1299 # 100)]);
    ("city", mkSeries DObject [Str "sao paulo"; Str "rio"; Str "sao paulo"]);
    ("purchased", mkSeries DObject [Str "2024-01-01"; Null; Str "2024-01-02"]) ].

(** Nine prices whose quartiles are 10 and 20. *)
Definition prices : Series :=
  mkSeries DFloat64
    [Num 20; Num 36; Num 0; Num 10; Num 34; Num 5; Num 12; Num 18; Num 15].

Definition sales : DataFrame :=
  [ ("price", prices);
    ("state", mkSeries DObject
       [Str "SP"; Str "RJ"; Str "SP"; Str "MG"; Str "SP"; Null; Str "RJ"; Str "SP";
        Str "BA"]) ].

(** Two returned orders: no discount was recorded, no note was written. *)
Definition returned : DataFrame :=
  [ ("discount", mkSeries DFloat64 [Null; Null]);
    ("note", mkSeries DObject [Null; Null]);
    ("price", mkSeries DFloat64 [Num 30; Num 45]) ].

(** A frame with the same columns and no rows. *)
Definition no_rows : DataFrame :=
  [ ("discount", mkSeries DFloat64 []);
    ("note", mkSeries DObject []);
    ("price", mkSeries DFloat64 []) ].

(** Four visits, two of them repeats of the first, one score missing. *)
Definition visits : DataFrame :=
  [ ("state", mkSeries DObject [Str "SP"; Str "RJ"; Str "SP"; Str "SP"]);
    ("score", mkSeries DFloat64 [Num 5; Null; Num 5; Num 5]);
    ("note", mkSeries DObject [Null; Null; Null; Str "late"]) ].

(** A one-row table, the content of every readable file below. *)
Definition tiny : DataFrame := [("id", mkSeries DInt64 [Num 1])].

Definition seven_files : list string :=
  [ "data/olist_customers_dataset.csv";
    "data/olist_geolocation_dataset.csv";
    "data/olist_order_items_dataset.csv";
    "data/olist_orders_dataset.csv";
    "data/olist_order_payments_dataset.csv";
    "data/olist_order_reviews_dataset.csv";
    "data/product_category_name_translation.csv" ].

(** The directory [data] with seven of the nine files; the products and
    the sellers are absent. *)
Definition seven_of_nine : DataLoader.FileSystem :=
  DataLoader.mkFS
    (fun p => bool_decide (p ∈ "data" :: seven_files))
    (fun p => if bool_decide (p ∈ seven_files) then Ok tiny
              else Raise (FileNotFoundError "No such file or directory")).

(** The same directory with an empty file for the products. *)
Definition seven_and_an_empty_file : DataLoader.FileSystem :=
  DataLoader.mkFS
    (fun p => bool_decide (p ∈ "data" :: "data/olist_products_dataset.csv" :: seven_files))
    (fun p => if bool_decide (p ∈ seven_files) then Ok tiny
              else if bool_decide (p = "data/olist_products_dataset.csv")
              then Raise EmptyDataError
              else Raise (FileNotFoundError "No such file or directory")).

(** A cast that knows float64 (for columns of numbers) and string. *)
Definition astype_float_or_string (dtype : string) (s : Series) : result Series :=
  if decide (dtype = "float64") then
    if forallb (fun c => match c with Num _ | Null => true | _ => false end) (values s)
    then Ok (mkSeries DFloat64 (values s))
    else Raise (ValueError "could not convert string to float")
  else if decide (dtype = "string") then Ok (mkSeries DString (values s))
  else Raise (OtherError "data type not understood").

(** Score to float, city to float (which cannot be), dates to datetime. *)
Definition reviews_types : list (string * string) :=
  [ ("review_score", "float64"); ("city", "float64"); ("purchased", "datetime") ].

(** A calendar for the samples: timestamps are hours since a Monday, the
    first of January; months have 30 days, years 12 months. *)
Definition toy_hour (t : Z) : Z := t `mod` 24.
Definition toy_dayofweek (t : Z) : Z := (t `div` 24) `mod` 7.
Definition toy_month (t : Z) : Z := (t `div` 720) `mod` 12 + 1.
Definition toy_quarter (t : Z) : Z := ((t `div` 720) `mod` 12) `div` 3 + 1.
Definition toy_year (t : Z) : Z := 2024 + t `div` 8640.
Definition toy_days (d : Z) : Z := d `div` 24.

(** Four deliveries, one without a date. *)
Definition deliveries : DataFrame :=
  [ ("delivered", mkSeries DDatetime64 [Date 30; Date 800; Null; Date 54]);
    ("price", mkSeries DFloat64 [Num 30; Num 45; Num 12; Num 8]) ].

(** Three orders with a price, a freight value and a review score. *)
Definition orders : DataFrame :=
  [ ("price", mkSeries DFloat64 [Num 30; Num 45; Num 12]);
    ("freight", mkSeries DFloat64 [Num 8; Num 9; Num 3]);
    ("status", mkSeries DObject [Str "delivered"; Str "shipped"; Str "delivered"]);
    ("channel", mkSeries DObject [Str "web"; Str "app"; Str "web"]);
    ("region", mkSeries DObject [Str "south"; Str "south"; Str "north"]);
    ("review_score", mkSeries DInt64 [Num 5; Num 4; Num 1]) ].

(** A correlation that is undefined for every pair, and a pivot that
    always succeeds: stand-ins for pandas in the samples. *)
Definition no_corr (a b : Series) : flt := None.
Definition unit_pivot (d : DataFrame) (col1 col2 target : string) : result unit :=
  Ok tt.

End Examples.

(** * Properties *)

Import Frame EdaPipeline Decisions DataLoader Loading Utils.

(** ** Generic facts about the list helpers *)

Lemma elem_of_List_filter {A} (f : A -> bool) (l : list A) (x : A) :
  x ∈ List.filter f l <-> x ∈ l /\ f x = true.
Proof. rewrite !list_elem_of_In. apply filter_In. Qed.

Lemma elem_of_remove_first (x y : string) (l : list string) :
  y ∈ remove_first x l -> y ∈ l.
Proof.
  induction l as [|z l IH]; simpl; [done|].
  destruct (decide (z = x)); rewrite ?elem_of_cons; intros H; [by right|].
  destruct H as [->|H]; [by left | right; auto].
Qed.

Lemma elem_of_remove_first_ne (x y : string) (l : list string) :
  y <> x -> y ∈ l -> y ∈ remove_first x l.
Proof.
  intros Hne. induction l as [|z l IH]; simpl; [done|].
  rewrite elem_of_cons. intros [Heq|H].
  - subst z. rewrite decide_False by done. by left.
  - destruct (decide (z = x)); [done | right; auto].
Qed.

Lemma not_elem_of_remove_first (x : string) (l : list string) :
  NoDup l -> x ∉ remove_first x l.
Proof.
  induction 1 as [|z l Hz Hl IH]; simpl; [apply not_elem_of_nil|].
  destruct (decide (z = x)) as [->|Hne]; [done|].
  rewrite elem_of_cons. intros [Heq|H]; [by subst | by apply IH].
Qed.

Lemma getitem_elem_of (df0 : DataFrame) (col : string) (s : Series) :
  NoDup (columns df0) -> (col, s) ∈ df0 -> getitem df0 col = Ok s.
Proof.
  unfold columns. induction df0 as [|[c s0] df0 IH]; simpl; intros Hnd Hin.
  - by apply elem_of_nil in Hin.
  - apply NoDup_cons in Hnd as [Hc Hnd]. apply elem_of_cons in Hin as [Heq|Hin].
    + inversion Heq; subst. by rewrite decide_True.
    + rewrite decide_False; [by apply IH|].
      intros ->. apply Hc. apply list_elem_of_fmap. by exists (col, s).
Qed.

Lemma elem_of_unique_label (df0 : DataFrame) (col : string) (s1 s2 : Series) :
  NoDup (columns df0) -> (col, s1) ∈ df0 -> (col, s2) ∈ df0 -> s1 = s2.
Proof.
  intros Hnd H1 H2.
  pose proof (getitem_elem_of _ _ _ Hnd H1) as E1.
  pose proof (getitem_elem_of _ _ _ Hnd H2) as E2.
  congruence.
Qed.

(** ** The constructor's loops as filters *)

Section Classifier.

Variable parse_date : cell -> option Z.

Lemma detect_datetime_labels (l : DataFrame) (d : DataFrame) (acc : list string) :
  (fold_left (detect_datetime_step parse_date) l (d, acc)).2
  = acc ++ (List.filter (fun c => qualifies_datetime parse_date c.2) l).*1.
Proof.
  revert d acc. induction l as [|[col s] l IH]; intros d acc; simpl.
  - by rewrite app_nil_r.
  - unfold qualifies_datetime, parses. simpl.
    destruct (is_datetime64_any_dtype s); simpl.
    + rewrite IH. by rewrite <- app_assoc.
    + destruct (is_object_or_string s); simpl; [|apply IH].
      destruct (to_datetime parse_date s); simpl; rewrite IH; [|done].
      by rewrite <- app_assoc.
Qed.

Lemma setitem_middle (pre post : DataFrame) (col : string) (s s' : Series) :
  col ∉ columns pre ->
  setitem (pre ++ (col, s) :: post) col s' = pre ++ (col, s') :: post.
Proof.
  unfold columns. induction pre as [|[c s0] pre IH]; simpl; intros Hc.
  - by rewrite decide_True.
  - apply not_elem_of_cons in Hc as [Hne Hc].
    rewrite decide_False by done. by rewrite IH.
Qed.

Lemma detect_datetime_frame (l pre : DataFrame) (acc : list string) :
  NoDup (columns (pre ++ l)) ->
  (fold_left (detect_datetime_step parse_date) l (pre ++ l, acc)).1
  = pre ++ map (fun c => (c.1, coerced parse_date c.2)) l.
Proof.
  revert pre acc. induction l as [|[col s] l IH]; intros pre acc Hnd; simpl.
  - done.
  - assert (Hcol : col ∉ columns pre).
    { unfold columns in *. rewrite fmap_app in Hnd.
      apply NoDup_app in Hnd as (_ & Hd & _). intros Hin.
      apply (Hd col Hin). simpl. by left. }
    assert (Hstep : forall s' acc',
      (fold_left (detect_datetime_step parse_date) l
         (pre ++ (col, s') :: l, acc')).1
      = pre ++ (col, s') :: map (fun c => (c.1, coerced parse_date c.2)) l).
    { intros s' acc'.
      replace (pre ++ (col, s') :: l) with ((pre ++ [(col, s')]) ++ l)
        by (by rewrite <- app_assoc).
      rewrite IH; [by rewrite <- app_assoc|].
      unfold columns in *. rewrite <- app_assoc. simpl.
      rewrite !fmap_app in *. simpl in *. done. }
    unfold coerced. simpl.
    destruct (is_datetime64_any_dtype s); [apply Hstep|].
    destruct (is_object_or_string s); [|apply Hstep].
    destruct (to_datetime parse_date s); [|apply Hstep].
    rewrite setitem_middle by done. apply Hstep.
Qed.

Lemma classify_lists (target : option string) (dts : list string) (ct hct : Z)
    (l : DataFrame) (cats highs : list string) :
  fold_left (classify_step target dts ct hct) l (cats, highs)
  = (cats ++ (List.filter (goes_categorical target dts ct hct) l).*1,
     highs ++ (List.filter (goes_high_cardinality target dts ct hct) l).*1).
Proof.
  revert cats highs. induction l as [|[col s] l IH]; intros cats highs; simpl.
  - by rewrite !app_nil_r.
  - unfold goes_categorical, goes_high_cardinality, skipped, categorical_candidate.
    simpl.
    destruct (is_target target col || bool_decide (col ∈ dts)); simpl; [apply IH|].
    destruct (is_categorical_dtype s || is_object_or_string s
              || is_int64_or_float64 s && bool_decide (Z.of_nat (nunique s) <= ct));
      simpl; [|apply IH].
    destruct (bool_decide (Z.of_nat (nunique s) <= hct)); simpl;
      rewrite IH; by rewrite <- app_assoc.
Qed.

(** The four lists and the stored frame, in closed form. *)
Lemma init_unfold df0 target ct hct :
  __init__ parse_date df0 target ct hct
  = let dts := (detect_datetime parse_date df0).2 in
    mkEDA (detect_datetime parse_date df0).1 target ct hct dts
      (detect_numerical df0 target dts)
      (detect_categorical df0 target dts ct hct).1
      (detect_categorical df0 target dts ct hct).2.
Proof.
  unfold __init__. destruct (detect_datetime parse_date df0) as [d dts]. simpl.
  by destruct (detect_categorical df0 target dts ct hct).
Qed.

Lemma init_datetime_cols df0 target ct hct :
  datetime_cols (__init__ parse_date df0 target ct hct)
  = (List.filter (fun c => qualifies_datetime parse_date c.2) df0).*1.
Proof.
  rewrite init_unfold. simpl. unfold detect_datetime.
  by rewrite detect_datetime_labels.
Qed.

Lemma init_df df0 target ct hct :
  NoDup (columns df0) ->
  df (__init__ parse_date df0 target ct hct)
  = map (fun c => (c.1, coerced parse_date c.2)) df0.
Proof.
  intros Hnd. rewrite init_unfold. simpl. unfold detect_datetime.
  apply (detect_datetime_frame df0 [] [] Hnd).
Qed.

Lemma init_categorical_cols df0 target ct hct :
  categorical_cols (__init__ parse_date df0 target ct hct)
  = (List.filter
       (goes_categorical target
          (datetime_cols (__init__ parse_date df0 target ct hct)) ct hct) df0).*1.
Proof.
  rewrite init_unfold. simpl. unfold detect_categorical.
  by rewrite classify_lists.
Qed.

Lemma init_high_cardinality_cols df0 target ct hct :
  high_cardinality_cols (__init__ parse_date df0 target ct hct)
  = (List.filter
       (goes_high_cardinality target
          (datetime_cols (__init__ parse_date df0 target ct hct)) ct hct) df0).*1.
Proof.
  rewrite init_unfold. simpl. unfold detect_categorical.
  by rewrite classify_lists.
Qed.

Lemma init_numerical_cols df0 target ct hct :
  numerical_cols (__init__ parse_date df0 target ct hct)
  = detect_numerical df0 target
      (datetime_cols (__init__ parse_date df0 target ct hct)).
Proof. by rewrite init_unfold. Qed.

End Classifier.

(** ** Membership in the four lists *)

Lemma elem_of_filter_labels (f : string * Series -> bool) (l : DataFrame) (col : string) :
  col ∈ (List.filter f l).*1 <-> exists s, (col, s) ∈ l /\ f (col, s) = true.
Proof.
  rewrite list_elem_of_fmap. split.
  - intros ([c s] & -> & H). apply elem_of_List_filter in H as [H1 H2].
    exists s. done.
  - intros (s & H1 & H2). exists (col, s). split; [done|].
    by apply elem_of_List_filter.
Qed.

Lemma numeric_dtype_cases (s : Series) :
  is_int64_or_float64 s = true <-> dtype_of s = DInt64 \/ dtype_of s = DFloat64.
Proof.
  unfold is_int64_or_float64.
  rewrite orb_true_iff, !bool_decide_eq_true. done.
Qed.

Lemma text_dtype_cases (s : Series) :
  is_object_or_string s = true <-> dtype_of s = DObject \/ dtype_of s = DString.
Proof.
  unfold is_object_or_string, is_string_dtype.
  rewrite orb_true_iff, bool_decide_eq_true.
  destruct (dtype_of s); split; intros [H|H]; try done; auto.
Qed.

Lemma numeric_not_text (s : Series) :
  is_int64_or_float64 s = true -> is_object_or_string s = false.
Proof.
  intros [H|H]%numeric_dtype_cases; apply not_true_is_false;
    intros [H'|H']%text_dtype_cases; congruence.
Qed.

Lemma numeric_not_datetime64 (s : Series) :
  is_int64_or_float64 s = true -> is_datetime64_any_dtype s = false.
Proof.
  intros [H|H]%numeric_dtype_cases; unfold is_datetime64_any_dtype;
    apply bool_decide_eq_false; congruence.
Qed.

Lemma numeric_not_category (s : Series) :
  is_int64_or_float64 s = true -> is_categorical_dtype s = false.
Proof.
  intros [H|H]%numeric_dtype_cases; unfold is_categorical_dtype;
    apply bool_decide_eq_false; congruence.
Qed.

Section ClassifierLists.

Variable parse_date : cell -> option Z.
Variables (df0 : DataFrame) (target : option string) (ct hct : Z).

Let self := __init__ parse_date df0 target ct hct.

Lemma elem_of_datetime_cols col :
  col ∈ datetime_cols self
  <-> exists s, (col, s) ∈ df0 /\ qualifies_datetime parse_date s = true.
Proof.
  unfold self. rewrite init_datetime_cols.
  apply (elem_of_filter_labels (fun c => qualifies_datetime parse_date c.2)).
Qed.

Lemma elem_of_categorical_cols col :
  col ∈ categorical_cols self
  <-> exists s, (col, s) ∈ df0
        /\ goes_categorical target (datetime_cols self) ct hct (col, s) = true.
Proof.
  unfold self. rewrite init_categorical_cols. apply elem_of_filter_labels.
Qed.

Lemma elem_of_high_cardinality_cols col :
  col ∈ high_cardinality_cols self
  <-> exists s, (col, s) ∈ df0
        /\ goes_high_cardinality target (datetime_cols self) ct hct (col, s) = true.
Proof.
  unfold self. rewrite init_high_cardinality_cols. apply elem_of_filter_labels.
Qed.

Lemma elem_of_numerical_cols_1 col :
  col ∈ numerical_cols self ->
  (col ∉ datetime_cols self)
  /\ exists s, (col, s) ∈ df0 /\ is_int64_or_float64 s = true.
Proof.
  unfold self. rewrite init_numerical_cols. unfold detect_numerical.
  intros [H1 H2]%elem_of_List_filter.
  apply negb_true_iff, bool_decide_eq_false in H2. split; [done|].
  assert (H : col ∈ select_dtypes_int64_float64 df0).
  { destruct target as [t|]; [|done].
    destruct (bool_decide _); [|done]. eapply elem_of_remove_first, H1. }
  apply (elem_of_filter_labels (fun c => is_int64_or_float64 c.2)) in H.
  done.
Qed.

Lemma elem_of_numerical_cols_2 col s :
  NoDup (columns df0) ->
  (col, s) ∈ df0 -> is_int64_or_float64 s = true -> target <> Some col ->
  col ∈ numerical_cols self.
Proof.
  intros Hnd Hin Hnum Ht.
  unfold self. rewrite init_numerical_cols. unfold detect_numerical.
  apply elem_of_List_filter. split.
  - assert (H : col ∈ select_dtypes_int64_float64 df0).
    { apply (elem_of_filter_labels (fun c => is_int64_or_float64 c.2)).
      by exists s. }
    destruct target as [t|]; [|done].
    destruct (bool_decide _); [|done].
    apply elem_of_remove_first_ne; [congruence | done].
  - apply negb_true_iff, bool_decide_eq_false.
    intros (s' & Hin' & Hq)%elem_of_datetime_cols.
    rewrite (elem_of_unique_label _ _ _ _ Hnd Hin' Hin) in Hq.
    unfold qualifies_datetime in Hq.
    by rewrite numeric_not_datetime64, numeric_not_text in Hq.
Qed.

End ClassifierLists.

(** ** C1: the four lists *)

Lemma categorical_not_datetime parse_date df0 target ct hct col :
  let self := __init__ parse_date df0 target ct hct in
  col ∈ categorical_cols self \/ col ∈ high_cardinality_cols self ->
  (col ∉ datetime_cols self) /\ target <> Some col.
Proof.
  intros self H.
  assert (Hs : skipped target (datetime_cols self) col = false).
  { destruct H as [H|H].
    - apply elem_of_categorical_cols in H as (s & _ & H).
      unfold goes_categorical in H. simpl in H.
      apply andb_true_iff in H as [H _]. apply andb_true_iff in H as [H _].
      by apply negb_true_iff in H.
    - apply elem_of_high_cardinality_cols in H as (s & _ & H).
      unfold goes_high_cardinality in H. simpl in H.
      apply andb_true_iff in H as [H _]. apply andb_true_iff in H as [H _].
      by apply negb_true_iff in H. }
  unfold skipped, is_target in Hs. apply orb_false_iff in Hs as [H1 H2].
  apply bool_decide_eq_false in H1, H2. done.
Qed.

Lemma categorical_high_cardinality_disjoint parse_date df0 target ct hct :
  NoDup (columns df0) ->
  let self := __init__ parse_date df0 target ct hct in
  disjoint (categorical_cols self) (high_cardinality_cols self).
Proof.
  intros Hnd self col (s1 & Hin1 & H1)%elem_of_categorical_cols
                      (s2 & Hin2 & H2)%elem_of_high_cardinality_cols.
  rewrite (elem_of_unique_label _ _ _ _ Hnd Hin2 Hin1) in H2.
  unfold goes_categorical in H1. unfold goes_high_cardinality in H2.
  apply andb_true_iff in H1 as [_ H1]. apply andb_true_iff in H2 as [_ H2].
  by rewrite H1 in H2.
Qed.

(** C1, as the code has it: the datetime list is disjoint from the other
    three and the categorical list from the high-cardinality list, but the
    numerical list keeps every int64/float64 column other than the target,
    whatever its cardinality.  A numeric column with
    [n_unique <= categorical_threshold] is therefore in the numerical list
    and in the categorical family (split by [high_cardinality_threshold]);
    one with [n_unique > categorical_threshold] is in the numerical list
    only. *)
Theorem C1_category_lists (parse_date : cell -> option Z) (df0 : DataFrame)
    (target : option string) (ct hct : Z) :
  NoDup (columns df0) ->
  let self := __init__ parse_date df0 target ct hct in
  disjoint (datetime_cols self) (numerical_cols self)
  /\ disjoint (datetime_cols self) (categorical_cols self)
  /\ disjoint (datetime_cols self) (high_cardinality_cols self)
  /\ disjoint (categorical_cols self) (high_cardinality_cols self)
  /\ forall col s,
       (col, s) ∈ df0 -> is_int64_or_float64 s = true -> target <> Some col ->
       col ∈ numerical_cols self
       /\ (col ∉ datetime_cols self)
       /\ (Z.of_nat (nunique s) <= ct ->
             (Z.of_nat (nunique s) <= hct -> col ∈ categorical_cols self)
             /\ (hct < Z.of_nat (nunique s) -> col ∈ high_cardinality_cols self))
       /\ (ct < Z.of_nat (nunique s) ->
             (col ∉ categorical_cols self) /\ (col ∉ high_cardinality_cols self)).
Proof.
  intros Hnd self. repeat split.
  - intros col Hd Hn. by apply elem_of_numerical_cols_1 in Hn as [Hn _].
  - intros col Hd Hc.
    by destruct (categorical_not_datetime parse_date df0 target ct hct col (or_introl Hc)).
  - intros col Hd Hc.
    by destruct (categorical_not_datetime parse_date df0 target ct hct col (or_intror Hc)).
  - by apply categorical_high_cardinality_disjoint.
  - by eapply elem_of_numerical_cols_2.
  - pose proof (elem_of_numerical_cols_2 parse_date df0 target ct hct col s
                  Hnd H H0 H1) as Hn.
    by apply elem_of_numerical_cols_1 in Hn as [Hn _].
  - intros Hhct. apply elem_of_categorical_cols. exists s. split; [done|].
    pose proof (elem_of_numerical_cols_2 parse_date df0 target ct hct col s
                  Hnd H H0 H1) as Hn.
    apply elem_of_numerical_cols_1 in Hn as [Hn _].
    unfold goes_categorical, skipped, categorical_candidate, is_target. simpl.
    rewrite H0. rewrite !bool_decide_eq_false_2 by done.
    rewrite !bool_decide_eq_true_2 by done.
    by rewrite !orb_true_r.
  - intros Hhct. apply elem_of_high_cardinality_cols. exists s. split; [done|].
    pose proof (elem_of_numerical_cols_2 parse_date df0 target ct hct col s
                  Hnd H H0 H1) as Hn.
    apply elem_of_numerical_cols_1 in Hn as [Hn _].
    unfold goes_high_cardinality, skipped, categorical_candidate, is_target. simpl.
    rewrite H0. rewrite !bool_decide_eq_false_2 by done.
    rewrite (bool_decide_eq_false_2 (Z.of_nat (nunique s) <= hct)) by lia.
    rewrite !bool_decide_eq_true_2 by done.
    by rewrite !orb_true_r.
  - intros (s' & Hin & Hc)%elem_of_categorical_cols.
    rewrite (elem_of_unique_label _ _ _ _ Hnd Hin H) in Hc.
    unfold goes_categorical, categorical_candidate in Hc. simpl in Hc.
    rewrite numeric_not_category, numeric_not_text in Hc by done.
    rewrite (bool_decide_eq_false_2 (Z.of_nat (nunique s) <= ct)) in Hc by lia.
    by rewrite !andb_false_r, andb_false_l in Hc.
  - intros (s' & Hin & Hc)%elem_of_high_cardinality_cols.
    rewrite (elem_of_unique_label _ _ _ _ Hnd Hin H) in Hc.
    unfold goes_high_cardinality, categorical_candidate in Hc. simpl in Hc.
    rewrite numeric_not_category, numeric_not_text in Hc by done.
    rewrite (bool_decide_eq_false_2 (Z.of_nat (nunique s) <= ct)) in Hc by lia.
    by rewrite !andb_false_r, andb_false_l in Hc.
Qed.

Lemma reviews_labels_unique : NoDup (columns Examples.reviews).
Proof. apply (bool_decide_unpack _). by vm_compute. Qed.

Lemma C1_category_lists_witness :
  NoDup (columns Examples.reviews)
  /\ let self := __init__ Examples.parse_two_dates Examples.reviews None 2 100 in
     disjoint (categorical_cols self) (high_cardinality_cols self)
     /\ "price" ∈ numerical_cols self
     /\ ("price" ∉ categorical_cols self).
Proof.
  split; [exact reviews_labels_unique|].
  intros self.
  destruct (C1_category_lists Examples.parse_two_dates Examples.reviews None 2 100
              reviews_labels_unique) as (_ & _ & _ & Hd & Hnum).
  split; [exact Hd|].
  destruct (Hnum "price" (mkSeries DFloat64 [Num (199 # 10); Num 45; Num (1299 # 100)]))
    as (Hn & _ & _ & Hhigh).
  - unfold Examples.reviews. by repeat constructor.
  - reflexivity.
  - discriminate.
  - split; [exact Hn|]. apply Hhigh. vm_compute. reflexivity.
Defined.

(** C1 fails as stated: a score column of dtype int64 with two distinct
    values, under [categorical_threshold = 2], is listed as numerical and
    as categorical. *)
Lemma C1_counterexample :
  let self := __init__ Examples.parse_two_dates Examples.reviews None 2 100 in
  NoDup (columns Examples.reviews)
  /\ (exists s, ("review_score", s) ∈ Examples.reviews
        /\ is_int64_or_float64 s = true /\ Z.of_nat (nunique s) <= 2)
  /\ numerical_cols self = ["review_score"; "price"]
  /\ categorical_cols self = ["review_score"; "city"]
  /\ ~ disjoint (numerical_cols self) (categorical_cols self).
Proof.
  intros self.
  assert (Hn : numerical_cols self = ["review_score"; "price"]) by (by vm_compute).
  assert (Hc : categorical_cols self = ["review_score"; "city"]) by (by vm_compute).
  split; [exact reviews_labels_unique|]. split.
  { exists (mkSeries DInt64 [Num 5; Num 4; Num 5]). split; [|split].
    - unfold Examples.reviews. by repeat constructor.
    - reflexivity.
    - by vm_compute. }
  split; [done|]. split; [done|].
  rewrite Hn, Hc. intros Hd. by apply (Hd "review_score"); repeat constructor.
Qed.

(** ** Datetime probing of text columns (C2, C3, C9) *)

Section Probing.

Variable parse_date : cell -> option Z.


Lemma mapM_parse_cell_raise (l : list cell) :
  (exists c, c ∈ l /\ c <> Null /\ parse_date c = None) ->
  exists e, mapM (parse_cell parse_date) l = Raise e.
Proof.
  induction l as [|c l IH]; intros (c0 & Hin & Hnn & Hnone).
  - by apply elem_of_nil in Hin.
  - simpl. apply elem_of_cons in Hin as [->|Hin].
    + destruct c as [|q|str|t]; [done| | |]; simpl; rewrite Hnone; simpl; eauto.
    + destruct (parse_cell parse_date c); simpl; [|eauto].
      destruct IH as [e He]; [by exists c0|]. rewrite He. simpl. eauto.
Qed.


Lemma to_datetime_raise (s : Series) :
  has_invalid_date parse_date s -> exists e, to_datetime parse_date s = Raise e.
Proof.
  intros H. destruct (mapM_parse_cell_raise _ H) as (e & He).
  exists e. unfold to_datetime. by rewrite He.
Qed.

Lemma text_not_datetime64 (s : Series) :
  is_object_or_string s = true -> is_datetime64_any_dtype s = false.
Proof.
  intros [H|H]%text_dtype_cases; unfold is_datetime64_any_dtype;
    apply bool_decide_eq_false; congruence.
Qed.


Lemma getitem_map (f : Series -> Series) (df0 : DataFrame) (col : string) (s : Series) :
  getitem df0 col = Ok s ->
  getitem (map (fun c => (c.1, f c.2)) df0) col = Ok (f s).
Proof.
  induction df0 as [|[c s0] df0 IH]; simpl; [done|].
  destruct (decide (c = col)); [congruence | done].
Qed.

(** What [self.df] holds for a column of the input. *)
Lemma init_getitem df0 target ct hct col s :
  NoDup (columns df0) -> (col, s) ∈ df0 ->
  getitem (df (__init__ parse_date df0 target ct hct)) col
  = Ok (coerced parse_date s).
Proof.
  intros Hnd Hin. rewrite init_df by done.
  apply (getitem_map (coerced parse_date)). by apply getitem_elem_of.
Qed.

End Probing.


(** C9.  A text column with a non-null value that is not a date is stored
    in [self.df] exactly as it was given. *)
Theorem C9_failed_probe_leaves_column (parse_date : cell -> option Z)
    (df0 : DataFrame) (target : option string) (ct hct : Z)
    (col : string) (s : Series) :
  NoDup (columns df0) -> (col, s) ∈ df0 -> is_object_or_string s = true ->
  has_invalid_date parse_date s ->
  getitem (df (__init__ parse_date df0 target ct hct)) col = Ok s.
Proof.
  intros Hnd Hin Htext Hbad.
  destruct (to_datetime_raise parse_date s Hbad) as (e & He).
  rewrite (init_getitem _ _ _ _ _ _ s) by done.
  unfold coerced. by rewrite (text_not_datetime64 s Htext), Htext, He.
Qed.

Lemma reviews_city_invalid :
  has_invalid_date Examples.parse_two_dates
    (mkSeries DObject [Str "sao paulo"; Str "rio"; Str "sao paulo"]).
Proof. exists (Str "rio"). split; [by repeat constructor | by split]. Qed.



Lemma C9_failed_probe_leaves_column_witness :
  getitem (df (__init__ Examples.parse_two_dates Examples.reviews None 2 100)) "city"
  = Ok (mkSeries DObject [Str "sao paulo"; Str "rio"; Str "sao paulo"]).
Proof.
  apply C9_failed_probe_leaves_column.
  - exact reviews_labels_unique.
  - unfold Examples.reviews. by repeat constructor.
  - reflexivity.
  - exact reviews_city_invalid.
Defined.

(** C3 does not hold of the code: the first loop of the constructor has
    no test on the target, unlike lines 47-48 and line 58.  With the
    text column of purchase dates as target, the target is listed as a
    datetime column (and in none of the other lists). *)
Theorem C3_target_listed_as_datetime :
  let self := __init__ Examples.parse_two_dates Examples.reviews (Some "purchased") 2 100 in
  target_col self = Some "purchased"
  /\ datetime_cols self = ["purchased"]
  /\ numerical_cols self = ["review_score"; "price"]
  /\ categorical_cols self = ["review_score"; "city"]
  /\ high_cardinality_cols self = [].
Proof. by vm_compute. Qed.

(** ** Outliers (C6) *)

Lemma Qlt_bool_iff (x y : Q) : Qlt_bool x y = true <-> (x < y)%Q.
Proof.
  unfold Qlt_bool. rewrite negb_true_iff. split.
  - intros H. apply Qnot_le_lt. intros Hle. apply Qle_bool_iff in Hle. congruence.
  - intros H. apply not_true_is_false. intros Hle%Qle_bool_iff.
    by apply Qlt_not_le in H.
Qed.



Lemma counts_unique {A} (P : A -> Prop) (l : list A) (n m : nat) :
  counts P l n -> counts P l m -> n = m.
Proof.
  intros Hn. revert m. induction Hn; intros m Hm; inversion Hm; subst;
    try done; auto.
Qed.





(** The nine sample prices: quartiles 10 and 20, one outlier (36). *)
Example prices_profile :
  let self := __init__ Examples.parse_two_dates Examples.sales None 2 100 in
  exists p, numerical_profile self "price" = Ok p
    /\ (exists q1, np_Q1 p = Some q1 /\ (q1 == 10)%Q)
    /\ (exists q3, np_Q3 p = Some q3 /\ (q3 == 20)%Q)
    /\ np_outliers p = 1%nat.
Proof.
  intros self. eexists. split; [by vm_compute|]. simpl.
  split; [eexists; split; [reflexivity | by vm_compute]|].
  split; [eexists; split; [reflexivity | by vm_compute]|].
  by vm_compute.
Qed.

(** ** Columns without values (C8) *)

Lemma mapM_length {A B} (f : A -> result B) (l : list A) (bs : list B) :
  mapM f l = Ok bs -> length bs = length l.
Proof.
  revert bs. induction l as [|a l IH]; intros bs; simpl.
  - by intros [= <-].
  - destruct (f a); simpl; [|done]. destruct (mapM f l); simpl; [|done].
    intros [= <-]. simpl. f_equal. by apply IH.
Qed.

Lemma mapM_ok {A B} (f : A -> result B) (l : list A) :
  (forall a, a ∈ l -> exists b, f a = Ok b) -> exists bs, mapM f l = Ok bs.
Proof.
  induction l as [|a l IH]; intros H; simpl; [by eexists|].
  destruct (H a) as [b Hb]; [by left|]. rewrite Hb. simpl.
  destruct IH as [bs Hbs]; [intros a' Ha'; apply H; by right|].
  rewrite Hbs. simpl. by eexists.
Qed.

Lemma coerced_length parse_date (s : Series) :
  length (values (coerced parse_date s)) = length (values s).
Proof.
  unfold coerced. destruct (is_datetime64_any_dtype s); [done|].
  destruct (is_object_or_string s); [|done].
  unfold to_datetime. destruct (mapM _ (values s)) as [vs|] eqn:E; simpl; [|done].
  by apply mapM_length in E.
Qed.

Lemma init_len parse_date df0 target ct hct :
  NoDup (columns df0) -> len (df (__init__ parse_date df0 target ct hct)) = len df0.
Proof.
  intros Hnd. rewrite init_df by done. destruct df0 as [|[c s] df0]; simpl; [done|].
  apply coerced_length.
Qed.



Section EmptyColumns.

Variable s : Series.
Hypothesis all_null : Forall (eq Null) (values s).





End EmptyColumns.






(** On a frame without rows the numerical section divides by
    [len(self.df) = 0] (line 249). *)
Example no_rows_numerical_section :
  univariate_numerical (__init__ Examples.parse_two_dates Examples.no_rows None 10 100)
  = Raise ZeroDivisionError.
Proof. by vm_compute. Qed.

(** ** Frequency tables (C5) *)

#[local] Instance count_ge_total : Total count_ge.
Proof. intros a b. unfold count_ge. lia. Qed.

#[local] Instance count_ge_trans : Transitive count_ge.
Proof. intros a b c. unfold count_ge. lia. Qed.











(** ** Overview (C7) *)




Lemma duplicated_from_length (seen rs : list (list cell)) :
  length (duplicated_from seen rs) = length rs.
Proof.
  revert seen. induction rs as [|r rs IH]; intros seen; simpl; [done|].
  by rewrite IH.
Qed.




#[local] Instance missing_ge_total : Total missing_ge.
Proof. intros a b. unfold missing_ge. lia. Qed.

#[local] Instance missing_ge_trans : Transitive missing_ge.
Proof. intros a b c. unfold missing_ge. lia. Qed.

Lemma rows_length (df0 : DataFrame) : length (rows df0) = len df0.
Proof. unfold rows. by rewrite length_map, length_seq. Qed.




(** The overview of the four visits: row 2 repeats row 0 (25.00%); the
    score is missing once (25.00%); the note is missing three times
    (75.00%) and comes first. *)
Example visits_overview :
  let o := data_overview (__init__ Examples.parse_two_dates Examples.visits None 10 100) in
  ov_duplicates o = 1%nat
  /\ (exists p, ov_duplicates_pct o = Some p /\ Qred p = 25%Q)
  /\ (exists tbl, ov_missing o = Some tbl
        /\ map (fun r => (r.1.1, r.1.2, Qred r.2)) tbl
           = [("note", 3%nat, 75%Q); ("score", 1%nat, 25%Q)]).
Proof.
  split; [by vm_compute|]. split; eexists; split; by vm_compute.
Qed.

(** ** The loader (C4) *)

Lemma dict_get_set_eq {V} (m : dict V) (k : string) (v : V) :
  dict_get (dict_set m k v) k = Some v.
Proof.
  induction m as [|[k0 v0] m IH]; simpl.
  - by rewrite decide_True.
  - destruct (decide (k0 = k)) as [->|Hne]; simpl.
    + by rewrite decide_True.
    + by rewrite decide_False.
Qed.

Lemma dict_get_set_ne {V} (m : dict V) (k k' : string) (v : V) :
  k <> k' -> dict_get (dict_set m k v) k' = dict_get m k'.
Proof.
  intros Hne. induction m as [|[k0 v0] m IH]; simpl.
  - by rewrite decide_False.
  - destruct (decide (k0 = k)) as [->|Hne0]; simpl.
    + by rewrite !decide_False.
    + destruct (decide (k0 = k')); done.
Qed.

Lemma dict_set_length_fresh {V} (m : dict V) (k : string) (v : V) :
  dict_get m k = None -> length (dict_set m k v) = S (length m).
Proof.
  induction m as [|[k0 v0] m IH]; simpl; [done|].
  destruct (decide (k0 = k)); [done|]. simpl. intros H. by rewrite IH.
Qed.

Section Loader.

Variables (fs : FileSystem) (data_path : string) (verbose : bool).

Lemma load_step_failed total st i d :
  failed_datasets (load_step fs data_path verbose total st (i, d))
  = failed_datasets st ++ option_list (failure fs data_path d).
Proof.
  destruct d as [name file]. unfold load_step, failure. simpl.
  destruct (try_load fs data_path file) as [t|[]]; simpl; by rewrite ?app_nil_r.
Qed.

Lemma load_step_frames total st i d :
  data_frames (load_step fs data_path verbose total st (i, d))
  = store fs data_path (data_frames st) d.
Proof.
  destruct d as [name file]. unfold load_step, store. simpl.
  by destruct (try_load fs data_path file) as [t|[]].
Qed.

Lemma load_steps total (ds : list (string * string)) (a : nat) (st : Locals) :
  let st' := fold_left (load_step fs data_path verbose total)
               (zip (seq a (length ds)) ds) st in
  failed_datasets st' = failed_datasets st ++ omap (failure fs data_path) ds
  /\ data_frames st' = fold_left (store fs data_path) ds (data_frames st).
Proof.
  revert a st. induction ds as [|d ds IH]; intros a st; cbv zeta in *;
    cbn [length seq zip_with fold_left omap list_omap].
  - by rewrite app_nil_r.
  - destruct (IH (S a) (load_step fs data_path verbose total st (a, d))) as [IH1 IH2].
    rewrite IH1, IH2, load_step_failed, load_step_frames. split; [|done].
    rewrite <- app_assoc. by destruct (failure fs data_path d).
Qed.

Lemma store_other (ds : list (string * string)) (m : dict DataFrame) name :
  name ∉ ds.*1 ->
  dict_get (fold_left (store fs data_path) ds m) name = dict_get m name.
Proof.
  revert m. induction ds as [|d ds IH]; intros m Hn; simpl; [done|].
  simpl in Hn. apply not_elem_of_cons in Hn as [Hne Hn]. rewrite IH by done.
  unfold store. destruct (try_load fs data_path d.2); [|done].
  by apply dict_get_set_ne.
Qed.

Lemma store_lookup (ds : list (string * string)) (m : dict DataFrame) d t :
  NoDup ds.*1 -> d ∈ ds -> try_load fs data_path d.2 = Ok t ->
  dict_get (fold_left (store fs data_path) ds m) d.1 = Some t.
Proof.
  revert m. induction ds as [|d0 ds IH]; intros m Hnd Hin Ht; simpl.
  - by apply elem_of_nil in Hin.
  - simpl in Hnd. apply NoDup_cons in Hnd as [Hd0 Hnd].
    apply elem_of_cons in Hin as [->|Hin]; [|by apply IH].
    rewrite store_other by done. unfold store. rewrite Ht.
    apply dict_get_set_eq.
Qed.

Lemma store_size (ds : list (string * string)) (m : dict DataFrame) :
  NoDup ds.*1 -> (forall d, d ∈ ds -> dict_get m d.1 = None) ->
  length (fold_left (store fs data_path) ds m)
  = (length m + length (List.filter (loads fs data_path) ds))%nat.
Proof.
  revert m. induction ds as [|d ds IH]; intros m Hnd Hfresh; simpl; [lia|].
  simpl in Hnd. apply NoDup_cons in Hnd as [Hd Hnd].
  rewrite IH; [|done|].
  - unfold store, loads. destruct (try_load fs data_path d.2); simpl; [|lia].
    rewrite dict_set_length_fresh; [lia|]. apply Hfresh. by left.
  - intros d' Hd'. unfold store. destruct (try_load fs data_path d.2).
    + rewrite dict_get_set_ne; [apply Hfresh; by right|].
      intros Heq. apply Hd. rewrite Heq. apply list_elem_of_fmap. by exists d'.
    + apply Hfresh. by right.
Qed.

Lemma failure_absent d :
  present fs data_path d = false ->
  failure fs data_path d = Some (d.1, "File not found: " +:+ d.2).
Proof. unfold present, failure, try_load. by intros ->. Qed.

Lemma failure_loads d :
  loads fs data_path d = true -> failure fs data_path d = None.
Proof. unfold loads, failure. by destruct (try_load fs data_path d.2). Qed.

Lemma loads_present d :
  loads fs data_path d = true -> present fs data_path d = true.
Proof.
  unfold loads, present, try_load.
  by destruct (path_exists fs (path_join data_path d.2)).
Qed.

Lemma failures_when_present_load (ds : list (string * string)) :
  (forall d, d ∈ ds -> present fs data_path d = true -> loads fs data_path d = true) ->
  omap (failure fs data_path) ds
  = map (fun d => (d.1, "File not found: " +:+ d.2))
        (List.filter (fun d => negb (present fs data_path d)) ds)
  /\ List.filter (loads fs data_path) ds = List.filter (present fs data_path) ds.
Proof.
  induction ds as [|d ds IH]; intros H; [done|].
  destruct IH as [IH1 IH2]; [intros d' Hd'; apply H; by right|].
  cbn [omap list_omap List.filter]. 
  destruct (present fs data_path d) eqn:Hp; simpl.
  - rewrite (H d) by (done || by left). rewrite failure_loads by (apply H; [by left|done]).
    by rewrite IH1, IH2.
  - rewrite failure_absent by done.
    destruct (loads fs data_path d) eqn:Hl.
    { apply loads_present in Hl. congruence. }
    by rewrite IH1, IH2.
Qed.

End Loader.

Lemma load_loop_spec (fs : FileSystem) (data_path : string) (verbose : bool) :
  failed_datasets (load_loop fs data_path verbose)
  = omap (failure fs data_path) datasets
  /\ data_frames (load_loop fs data_path verbose)
     = fold_left (store fs data_path) datasets [].
Proof.
  unfold load_loop, enumerate1. generalize datasets. intros ds.
  exact (load_steps fs data_path verbose (length ds) ds 1 (mkLocals [] [] [])).
Qed.

Lemma datasets_length : length datasets = 9%nat.
Proof. reflexivity. Qed.

Lemma datasets_names_unique : NoDup datasets.*1.
Proof. apply (bool_decide_unpack _). by vm_compute. Qed.

(** C4, as the code has it.  [load_data] raises FileNotFoundError exactly
    when the path does not exist.  Otherwise it returns: the returned
    dict holds the table of every dataset whose file is there and is
    read, and every other dataset leaves one (name, message) entry, in
    dataset order, in the local list [failed_datasets].  With 7 of the 9
    files there and readable the dict has 7 tables and the list has the
    2 entries "File not found: <file>" of the absent files.  The list is
    printed in the verbose summary; the returned value is the dict
    alone. *)
Theorem C4_load_data (fs : FileSystem) (data_path : string) (verbose : bool) :
  (path_exists fs data_path = false ->
     load_data fs data_path verbose
     = (Raise (FileNotFoundError ("Data path not found: " +:+ data_path)), []))
  /\ (path_exists fs data_path = true ->
        let st := load_loop fs data_path verbose in
        (load_data fs data_path verbose).1 = Ok (data_frames st)
        /\ failed_datasets st = omap (failure fs data_path) datasets
        /\ length (data_frames st)
           = length (List.filter (loads fs data_path) datasets)
        /\ (forall d t, d ∈ datasets -> try_load fs data_path d.2 = Ok t ->
              dict_get (data_frames st) d.1 = Some t)
        /\ (length (List.filter (present fs data_path) datasets) = 7%nat ->
            (forall d, d ∈ datasets -> present fs data_path d = true ->
                       loads fs data_path d = true) ->
            length (data_frames st) = 7%nat
            /\ length (failed_datasets st) = 2%nat
            /\ failed_datasets st
               = map (fun d => (d.1, "File not found: " +:+ d.2))
                     (List.filter (fun d => negb (present fs data_path d)) datasets))).
Proof.
  split.
  - intros H. unfold load_data. by rewrite H.
  - intros H st. unfold load_data. rewrite H. cbn [negb fst].
    destruct (load_loop_spec fs data_path verbose) as [Hf Hd]. fold st in Hf, Hd.
    assert (Hsize : length (data_frames st)
                    = length (List.filter (loads fs data_path) datasets)).
    { rewrite Hd, store_size; [done | apply datasets_names_unique | done]. }
    split; [done|]. split; [done|]. split; [done|]. split.
    { intros d t Hin Ht. rewrite Hd.
      by apply store_lookup; [apply datasets_names_unique| |]. }
    intros H7 Hall.
    destruct (failures_when_present_load fs data_path datasets Hall) as [E1 E2].
    rewrite Hsize, Hf, E1, E2, length_map. split; [done|]. split; [|done].
    pose proof (filter_length (present fs data_path) datasets) as Hlen.
    rewrite datasets_length in Hlen. lia.
Qed.

Lemma C4_load_data_witness :
  path_exists Examples.seven_of_nine "data" = true
  /\ length (data_frames (load_loop Examples.seven_of_nine "data" true)) = 7%nat
  /\ length (failed_datasets (load_loop Examples.seven_of_nine "data" true)) = 2%nat.
Proof.
  split; [by vm_compute|].
  destruct (C4_load_data Examples.seven_of_nine "data" true) as [_ H].
  destruct (H ltac:(by vm_compute)) as (_ & _ & _ & _ & H7).
  destruct H7 as (H1 & H2 & _).
  - by vm_compute.
  - intros d Hd Hp. unfold datasets in Hd.
    repeat (apply elem_of_cons in Hd as [->|Hd]; [by vm_compute in Hp |- *|]).
    by apply elem_of_nil in Hd.
  - done.
Defined.

(** C4 fails as stated: the failure list is not part of what is returned.
    Run silently on the directory with seven files, [load_data] returns
    the seven tables and nothing else.  It returns the very same value on
    the directory where the products file is there but empty, although
    the failures recorded in the two runs differ. *)
Lemma C4_counterexample :
  let run1 := load_data Examples.seven_of_nine "data" false in
  let run2 := load_data Examples.seven_and_an_empty_file "data" false in
  (exists frames, run1 = (Ok frames, []) /\ length frames = 7%nat)
  /\ run1 = run2
  /\ failed_datasets (load_loop Examples.seven_of_nine "data" false)
     = [("products", "File not found: olist_products_dataset.csv");
        ("sellers", "File not found: olist_sellers_dataset.csv")]
  /\ failed_datasets (load_loop Examples.seven_and_an_empty_file "data" false)
     = [("products", "Empty CSV file");
        ("sellers", "File not found: olist_sellers_dataset.csv")].
Proof.
  intros run1 run2. split; [|split; [|split]]; try by vm_compute.
  eexists. split; by vm_compute.
Qed.

(** ** The type caster (C10) *)

Lemma getitem_setitem_eq (df0 : DataFrame) (col : string) (s s' : Series) :
  getitem df0 col = Ok s -> getitem (setitem df0 col s') col = Ok s'.
Proof.
  induction df0 as [|[c s0] df0 IH]; simpl; [done|].
  destruct (decide (c = col)) as [->|Hne]; simpl.
  - by rewrite decide_True.
  - by rewrite decide_False.
Qed.

Lemma getitem_setitem_ne (df0 : DataFrame) (col col' : string) (s' : Series) :
  col <> col' -> getitem (setitem df0 col s') col' = getitem df0 col'.
Proof.
  intros Hne. induction df0 as [|[c s0] df0 IH]; simpl.
  - by rewrite decide_False.
  - destruct (decide (c = col)) as [->|Hne0]; simpl.
    + by rewrite !decide_False.
    + by destruct (decide (c = col')).
Qed.

Section Caster.

Variable parse_date : cell -> option Z.
Variable astype : string -> Series -> result Series.

Lemma cast_loop_prefix (pre : list (string * string)) (df0 : DataFrame) :
  NoDup pre.*1 ->
  (forall c t, (c, t) ∈ pre ->
     exists s s', getitem df0 c = Ok s /\ cast_value parse_date astype t s = Ok s') ->
  exists df1,
    (forall rest, cast_loop parse_date astype df0 (pre ++ rest)
                  = cast_loop parse_date astype df1 rest)
    /\ (forall c t s, (c, t) ∈ pre -> getitem df0 c = Ok s ->
          exists s', cast_value parse_date astype t s = Ok s'
                     /\ getitem df1 c = Ok s')
    /\ (forall c, c ∉ pre.*1 -> getitem df1 c = getitem df0 c).
Proof.
  revert df0. induction pre as [|[c0 t0] pre IH]; intros df0 Hnd Hok.
  - exists df0. split; [done|]. split; [|done]. by intros c t s []%elem_of_nil.
  - simpl in Hnd. apply NoDup_cons in Hnd as [Hc0 Hnd].
    destruct (Hok c0 t0) as (s0 & s0' & Hget0 & Hcast0); [by left|].
    destruct (IH (setitem df0 c0 s0') Hnd) as (df1 & Hrest & Hdone & Hkeep).
    { intros c t Hin. destruct (Hok c t) as (s & s' & Hget & Hcast); [by right|].
      exists s, s'. split; [|done]. rewrite getitem_setitem_ne; [done|].
      intros ->. apply Hc0. apply list_elem_of_fmap. by exists (c, t). }
    exists df1. split; [|split].
    + intros rest. simpl. unfold cast_column. rewrite Hget0. simpl.
      rewrite Hcast0. apply Hrest.
    + intros c t s [[= -> ->]|Hin]%elem_of_cons Hget.
      * exists s0'. rewrite Hget in Hget0. inversion Hget0; subst s0.
        split; [done|]. rewrite Hkeep by done. by eapply getitem_setitem_eq.
      * apply (Hdone c t s Hin). rewrite getitem_setitem_ne; [done|].
        intros ->. apply Hc0. apply list_elem_of_fmap. by exists (c, t).
    + intros c Hc. simpl in Hc. apply not_elem_of_cons in Hc as [Hne Hc].
      rewrite Hkeep by done. by apply getitem_setitem_ne.
Qed.

End Caster.

(** C10.  When the casts of the columns listed first in the mapping
    succeed and the cast of the next column raises, the call raises that
    exception, prints nothing, and leaves the caller's frame with every
    earlier column converted and every other column as it was. *)
Theorem C10_cast_not_atomic (parse_date : cell -> option Z)
    (astype : string -> Series -> result Series) (df0 : DataFrame)
    (pre post : list (string * string)) (column dtype : string) (e : exn) :
  NoDup (pre ++ (column, dtype) :: post).*1 ->
  (forall c t, (c, t) ∈ pre ->
     exists s s', getitem df0 c = Ok s /\ cast_value parse_date astype t s = Ok s') ->
  cast_column parse_date astype df0 column dtype = Raise e ->
  let out := cast_data_types parse_date astype df0 (pre ++ (column, dtype) :: post) in
  raised out = Some e
  /\ printed_lines out = []
  /\ (forall c t s, (c, t) ∈ pre -> getitem df0 c = Ok s ->
        exists s', cast_value parse_date astype t s = Ok s'
                   /\ getitem (frame_after out) c = Ok s')
  /\ (forall c, c ∉ pre.*1 -> getitem (frame_after out) c = getitem df0 c).
Proof.
  intros Hnd Hok Hraise out.
  rewrite fmap_app in Hnd. apply NoDup_app in Hnd as (Hpre & Hdisj & Hpost).
  destruct (cast_loop_prefix parse_date astype pre df0 Hpre Hok)
    as (df1 & Hrest & Hdone & Hkeep).
  assert (Hcol : column ∉ pre.*1).
  { intros Hin. apply (Hdisj column Hin). simpl. by left. }
  assert (Hraise1 : cast_column parse_date astype df1 column dtype = Raise e).
  { unfold cast_column in *. by rewrite Hkeep. }
  assert (Hout : out = mkOutcome df1 [] (Some e)).
  { unfold out, cast_data_types. rewrite Hrest. simpl. by rewrite Hraise1. }
  rewrite Hout. simpl. done.
Qed.

Lemma C10_cast_not_atomic_witness :
  let out := cast_data_types Examples.parse_two_dates Examples.astype_float_or_string
               Examples.reviews Examples.reviews_types in
  raised out = Some (ValueError "could not convert string to float")
  /\ printed_lines out = []
  /\ getitem (frame_after out) "review_score"
     = Ok (mkSeries DFloat64 [Num 5; Num 4; Num 5]).
Proof.
  intros out.
  destruct (C10_cast_not_atomic Examples.parse_two_dates Examples.astype_float_or_string
              Examples.reviews [("review_score", "float64")] [("purchased", "datetime")]
              "city" "float64" (ValueError "could not convert string to float"))
    as (H1 & H2 & H3 & _).
  - apply (bool_decide_unpack _). by vm_compute.
  - intros c t [[= -> ->]|[]%elem_of_nil]%elem_of_cons.
    eexists _, _. split; by vm_compute.
  - by vm_compute.
  - split; [exact H1|]. split; [exact H2|].
    destruct (H3 "review_score" "float64" (mkSeries DInt64 [Num 5; Num 4; Num 5]))
      as (s' & Hs' & Hget).
    + by left.
    + by vm_compute.
    + etrans; [exact Hget|]. f_equal. vm_compute in Hs'. by inversion Hs'.
Defined.

(** The same frame with a mapping whose casts all succeed: the report is
    printed, with the dtypes before and after. *)
Example cast_report_printed :
  printed_lines
    (cast_data_types Examples.parse_two_dates Examples.astype_float_or_string
       Examples.reviews [("review_score", "float64"); ("purchased", "datetime")])
  = [ "Data Types Before:"; "review_score: int64"; "price: float64"; "city: object";
      "purchased: object";
      String "010"%char "Data Types After:"; "review_score: float64"; "price: float64";
      "city: object"; "purchased: datetime64[ns]" ].
Proof. by vm_compute. Qed.

(** * Further properties of the scripts *)

(** ** load_data: what is returned, what is recorded, what is printed *)

Lemma List_filter_sublist {A} (f : A -> bool) (l : list A) :
  List.filter f l `sublist_of` l.
Proof.
  induction l as [|x l IH]; simpl; [constructor|].
  destruct (f x); by constructor.
Qed.

Lemma unique_by_key {A B} (l : list (A * B)) (k : A) (v1 v2 : B) :
  (k, v1) ∈ l -> (k, v2) ∈ l -> NoDup l.*1 -> v1 = v2.
Proof.
  induction l as [|[k0 v0] l IH]; intros H1 H2 Hnd; [by apply elem_of_nil in H1|].
  simpl in Hnd. apply NoDup_cons in Hnd as [Hk Hnd].
  apply elem_of_cons in H1 as [H1|H1]; apply elem_of_cons in H2 as [H2|H2].
  - congruence.
  - inversion H1; subst. destruct Hk. apply list_elem_of_fmap. by exists (k0, v2).
  - inversion H2; subst. destruct Hk. apply list_elem_of_fmap. by exists (k0, v1).
  - by apply IH.
Qed.

Lemma dict_set_fresh {V} (m : dict V) (k : string) (v : V) :
  k ∉ m.*1 -> dict_set m k v = m ++ [(k, v)].
Proof.
  induction m as [|[k0 v0] m IH]; simpl; [done|].
  intros [Hne Hk]%not_elem_of_cons. rewrite decide_False by done. by rewrite IH.
Qed.

Section LoaderMore.

Variables (fs : FileSystem) (data_path : string).

Lemma loaded_entry_names (ds : list (string * string)) :
  (omap (loaded_entry fs data_path) ds).*1
  = (List.filter (loads fs data_path) ds).*1.
Proof.
  induction ds as [|d ds IH]; [done|]. cbn [omap list_omap List.filter].
  fold (omap (loaded_entry fs data_path) ds).
  unfold loaded_entry at 1, loads at 1.
  destruct (try_load fs data_path d.2); rewrite ?fmap_cons, IH; done.
Qed.

Lemma failure_names (ds : list (string * string)) :
  (omap (failure fs data_path) ds).*1
  = (List.filter (fun d => negb (loads fs data_path d)) ds).*1.
Proof.
  induction ds as [|d ds IH]; [done|]. cbn [omap list_omap List.filter].
  fold (omap (failure fs data_path) ds).
  unfold failure at 1, loads at 1.
  destruct (try_load fs data_path d.2) as [t|[]]; cbn [negb];
    rewrite ?fmap_cons, IH; done.
Qed.

Lemma store_appends (ds : list (string * string)) (m : dict DataFrame) :
  NoDup ds.*1 -> (forall name, name ∈ ds.*1 -> name ∉ m.*1) ->
  fold_left (store fs data_path) ds m = m ++ omap (loaded_entry fs data_path) ds.
Proof.
  revert m. induction ds as [|d ds IH]; intros m Hnd Hfresh.
  - simpl. by rewrite app_nil_r.
  - simpl in Hnd. apply NoDup_cons in Hnd as [Hd Hnd].
    cbn [fold_left omap list_omap]. unfold store at 2, loaded_entry at 1.
    destruct (try_load fs data_path d.2) as [t|e].
    + rewrite dict_set_fresh by (apply Hfresh; by left).
      rewrite IH; [by rewrite <- app_assoc | done |].
      intros name Hname. rewrite fmap_app. simpl.
      intros [Hin|Hin]%elem_of_app.
      * apply (Hfresh name); [by right | done].
      * apply list_elem_of_singleton in Hin. by subst.
    + apply IH; [done|]. intros name Hname. apply Hfresh. by right.
Qed.

End LoaderMore.

Lemma load_loop_frames (fs : FileSystem) (data_path : string) (verbose : bool) :
  data_frames (load_loop fs data_path verbose)
  = omap (loaded_entry fs data_path) datasets.
Proof.
  destruct (load_loop_spec fs data_path verbose) as [_ ->].
  rewrite store_appends; [done | apply datasets_names_unique |].
  intros name _. simpl. apply not_elem_of_nil.
Qed.

Lemma load_data_accounts_for_every_dataset_aux
    (fs : FileSystem) (data_path : string) (verbose : bool) :
  (length (data_frames (load_loop fs data_path verbose))
   + length (failed_datasets (load_loop fs data_path verbose)) = 9)%nat
  /\ (data_frames (load_loop fs data_path verbose)).*1
     = (List.filter (loads fs data_path) datasets).*1
  /\ (failed_datasets (load_loop fs data_path verbose)).*1
     = (List.filter (fun d => negb (loads fs data_path d)) datasets).*1.
Proof.
  assert (Hk : (data_frames (load_loop fs data_path verbose)).*1
               = (List.filter (loads fs data_path) datasets).*1).
  { rewrite load_loop_frames. apply loaded_entry_names. }
  assert (Hf : (failed_datasets (load_loop fs data_path verbose)).*1
     = (List.filter (fun d => negb (loads fs data_path d)) datasets).*1).
  { destruct (load_loop_spec fs data_path verbose) as [-> _]. apply failure_names. }
  split; [|done].
  rewrite <- (length_fmap fst (data_frames _)), <- (length_fmap fst (failed_datasets _)).
  rewrite Hk, Hf, !length_fmap.
  pose proof (filter_length (loads fs data_path) datasets) as H.
  by rewrite datasets_length in H.
Qed.

(** Every dataset is accounted for once: the keys of the returned dict
    are the names of the datasets that load, the names in
    [failed_datasets] are those of the others, both in the order of the
    [datasets] table; a name is never in both and the two add up to 9. *)
Theorem load_data_accounts_for_every_dataset
    (fs : FileSystem) (data_path : string) (verbose : bool) :
  path_exists fs data_path = true ->
  let st := load_loop fs data_path verbose in
  (load_data fs data_path verbose).1 = Ok (data_frames st)
  /\ (data_frames st).*1 = (List.filter (loads fs data_path) datasets).*1
  /\ (failed_datasets st).*1
     = (List.filter (fun d => negb (loads fs data_path d)) datasets).*1
  /\ (length (data_frames st) + length (failed_datasets st) = 9)%nat
  /\ forall name, name ∈ (data_frames st).*1 -> name ∉ (failed_datasets st).*1.
Proof.
  intros Hp st.
  destruct (load_data_accounts_for_every_dataset_aux fs data_path verbose)
    as (Hsum & Hk & Hf).
  fold st in Hsum, Hk, Hf.
  split; [unfold load_data; by rewrite Hp|]. split; [done|]. split; [done|].
  split; [done|].
  - rewrite Hk, Hf. intros name Hin Hin'.
    apply list_elem_of_fmap in Hin as (d1 & -> & [Hd1 Hl1]%elem_of_List_filter).
    apply list_elem_of_fmap in Hin' as (d2 & Heq & [Hd2 Hl2]%elem_of_List_filter).
    assert (d1 = d2); [|subst; by rewrite Hl1 in Hl2].
    destruct d1 as [n1 f1], d2 as [n2 f2]. simpl in Heq. subst n2.
    f_equal. by apply (unique_by_key datasets n1), datasets_names_unique.
Qed.

Lemma load_data_accounts_for_every_dataset_witness :
  path_exists Examples.seven_of_nine "data" = true
  /\ (data_frames (load_loop Examples.seven_of_nine "data" true)).*1
     = ["customers"; "geolocation"; "order_items"; "orders"; "order_payments";
        "order_reviews"; "product_category_name_translation"].
Proof.
  split; [by vm_compute|].
  destruct (load_data_accounts_for_every_dataset Examples.seven_of_nine "data" true)
    as (_ & H & _); [by vm_compute|].
  etrans; [exact H|]. by vm_compute.
Defined.

Section LoaderOutput.

Variables (fs : FileSystem) (data_path : string).

Lemma load_steps_stdout verbose total (items : list (nat * (string * string)))
    (st : Locals) :
  stdout (fold_left (load_step fs data_path verbose total) items st)
  = stdout st ++ say verbose (map (progress_line fs data_path total) items).
Proof.
  revert st. induction items as [|[i [name file]] items IH]; intros st.
  - simpl. destruct verbose; simpl; by rewrite app_nil_r.
  - cbn [fold_left map]. rewrite IH. unfold load_step, progress_line at 2.
    destruct (try_load fs data_path file) as [t|[]]; destruct verbose; simpl;
      by rewrite <- ?app_assoc, ?app_nil_r.
Qed.

End LoaderOutput.

(** [verbose] changes what is printed and nothing else: the value
    returned (or the exception raised) is the same with and without it,
    and a silent call prints nothing at all. *)
Theorem load_data_verbose_only_prints (fs : FileSystem) (data_path : string) :
  (load_data fs data_path true).1 = (load_data fs data_path false).1
  /\ (load_data fs data_path false).2 = [].
Proof.
  unfold load_data. destruct (path_exists fs data_path); simpl; [|done]. split.
  - by rewrite !load_loop_frames.
  - unfold load_loop. by rewrite load_steps_stdout.
Qed.






(** ** get_dataset_info *)

Section DatasetInfo.

Variable memory_usage : DataFrame -> Q.



End DatasetInfo.

(** ** The constructor: order, coverage, the stored frame, the thresholds *)

Lemma filter_labels_sublist (f : string * Series -> bool) (l : DataFrame) :
  (List.filter f l).*1 `sublist_of` columns l.
Proof. unfold columns. apply fmap_sublist, List_filter_sublist. Qed.

Lemma remove_first_sublist (x : string) (l : list string) :
  remove_first x l `sublist_of` l.
Proof.
  induction l as [|y l IH]; simpl; [constructor|].
  destruct (decide (y = x)); by constructor.
Qed.

Lemma numerical_cols_sublist parse_date df0 target ct hct :
  numerical_cols (__init__ parse_date df0 target ct hct) `sublist_of` columns df0.
Proof.
  rewrite init_numerical_cols. unfold detect_numerical.
  etrans; [apply List_filter_sublist|].
  assert (H : select_dtypes_int64_float64 df0 `sublist_of` columns df0)
    by apply (filter_labels_sublist (fun c => is_int64_or_float64 c.2)).
  destruct target as [t|]; [|done].
  destruct (bool_decide _); [|done].
  etrans; [apply remove_first_sublist | done].
Qed.

(** Each of the four lists names columns of the table in the table's
    order, and none names a column twice. *)
Theorem init_lists_follow_table_order (parse_date : cell -> option Z)
    (df0 : DataFrame) (target : option string) (ct hct : Z) :
  NoDup (columns df0) ->
  let self := __init__ parse_date df0 target ct hct in
  (datetime_cols self `sublist_of` columns df0 /\ NoDup (datetime_cols self))
  /\ (numerical_cols self `sublist_of` columns df0 /\ NoDup (numerical_cols self))
  /\ (categorical_cols self `sublist_of` columns df0 /\ NoDup (categorical_cols self))
  /\ (high_cardinality_cols self `sublist_of` columns df0
      /\ NoDup (high_cardinality_cols self)).
Proof.
  intros Hnd self.
  assert (H1 : datetime_cols self `sublist_of` columns df0).
  { unfold self. rewrite init_datetime_cols.
    apply (filter_labels_sublist (fun c => qualifies_datetime parse_date c.2)). }
  assert (H2 : numerical_cols self `sublist_of` columns df0)
    by apply numerical_cols_sublist.
  assert (H3 : categorical_cols self `sublist_of` columns df0).
  { unfold self. rewrite init_categorical_cols. apply filter_labels_sublist. }
  assert (H4 : high_cardinality_cols self `sublist_of` columns df0).
  { unfold self. rewrite init_high_cardinality_cols. apply filter_labels_sublist. }
  repeat split; try done; by eapply sublist_NoDup.
Qed.

Lemma init_lists_follow_table_order_witness :
  NoDup (columns Examples.reviews)
  /\ let self := __init__ Examples.parse_two_dates Examples.reviews None 2 100 in
     numerical_cols self `sublist_of` columns Examples.reviews
     /\ NoDup (categorical_cols self).
Proof.
  split; [exact reviews_labels_unique|]. intros self.
  destruct (init_lists_follow_table_order Examples.parse_two_dates Examples.reviews
              None 2 100 reviews_labels_unique) as (_ & [H2 _] & [_ H3] & _).
  split; [exact H2 | exact H3].
Defined.

Lemma target_not_numerical parse_date df0 t ct hct :
  NoDup (columns df0) ->
  t ∉ numerical_cols (__init__ parse_date df0 (Some t) ct hct).
Proof.
  intros Hnd. rewrite init_numerical_cols. unfold detect_numerical.
  intros [H _]%elem_of_List_filter. case_bool_decide as Hin; [|done].
  revert H. apply not_elem_of_remove_first.
  eapply sublist_NoDup; [exact Hnd|].
  apply (filter_labels_sublist (fun c => is_int64_or_float64 c.2)).
Qed.

(** The target is never listed as numerical, categorical or
    high-cardinality. *)
Theorem init_target_not_a_feature (parse_date : cell -> option Z)
    (df0 : DataFrame) (t : string) (ct hct : Z) :
  NoDup (columns df0) ->
  let self := __init__ parse_date df0 (Some t) ct hct in
  (t ∉ numerical_cols self) /\ (t ∉ categorical_cols self)
  /\ (t ∉ high_cardinality_cols self).
Proof.
  intros Hnd self. split; [|split].
  - by apply target_not_numerical.
  - intros Hc.
    by destruct (categorical_not_datetime parse_date df0 (Some t) ct hct t (or_introl Hc)).
  - intros Hc.
    by destruct (categorical_not_datetime parse_date df0 (Some t) ct hct t (or_intror Hc)).
Qed.

Lemma init_target_not_a_feature_witness :
  NoDup (columns Examples.reviews)
  /\ ("price" ∉ numerical_cols
        (__init__ Examples.parse_two_dates Examples.reviews (Some "price") 2 100)).
Proof.
  split; [exact reviews_labels_unique|].
  exact (proj1 (init_target_not_a_feature Examples.parse_two_dates Examples.reviews
                  "price" 2 100 reviews_labels_unique)).
Defined.

Section ClassifierDecisions.

Variable parse_date : cell -> option Z.
Variables (df0 : DataFrame) (target : option string) (ct hct : Z).
Hypothesis labels_unique : NoDup (columns df0).
Variables (col : string) (s : Series).
Hypothesis col_in_table : (col, s) ∈ df0.

Let self := __init__ parse_date df0 target ct hct.






End ClassifierDecisions.





(** The two thresholds only decide how the categorical family is split.
    The stored frame, the datetime list and the numerical list are the
    same for all thresholds; [high_cardinality_threshold] does not change
    which columns are in the family, and raising it only moves columns
    from the high-cardinality list to the categorical list. *)
Theorem init_thresholds_only_split (parse_date : cell -> option Z)
    (df0 : DataFrame) (target : option string) (ct ct' hct hct' : Z) :
  let a := __init__ parse_date df0 target ct hct in
  let b := __init__ parse_date df0 target ct' hct' in
  df a = df b /\ datetime_cols a = datetime_cols b
  /\ numerical_cols a = numerical_cols b
  /\ (ct = ct' ->
      (forall col, col ∈ categorical_cols a \/ col ∈ high_cardinality_cols a
                   <-> col ∈ categorical_cols b \/ col ∈ high_cardinality_cols b)
      /\ (hct <= hct' ->
          (forall col, col ∈ categorical_cols a -> col ∈ categorical_cols b)
          /\ (forall col, col ∈ high_cardinality_cols b ->
                          col ∈ high_cardinality_cols a))).
Proof.
  intros a b.
  assert (Hd : datetime_cols a = datetime_cols b)
    by (unfold a, b; by rewrite !init_datetime_cols).
  split; [unfold a, b; by rewrite !init_unfold|]. split; [done|].
  split; [unfold a, b; rewrite !init_numerical_cols; f_equal; exact Hd|].
  intros <-.
  assert (Hc : forall col, col ∈ categorical_cols a
            <-> exists s, (col, s) ∈ df0
                 /\ goes_categorical target (datetime_cols a) ct hct (col, s) = true)
    by apply elem_of_categorical_cols.
  assert (Hh : forall col, col ∈ high_cardinality_cols a
            <-> exists s, (col, s) ∈ df0
                 /\ goes_high_cardinality target (datetime_cols a) ct hct (col, s) = true)
    by apply elem_of_high_cardinality_cols.
  assert (Hc' : forall col, col ∈ categorical_cols b
            <-> exists s, (col, s) ∈ df0
                 /\ goes_categorical target (datetime_cols a) ct hct' (col, s) = true).
  { intros col. rewrite Hd. apply elem_of_categorical_cols. }
  assert (Hh' : forall col, col ∈ high_cardinality_cols b
            <-> exists s, (col, s) ∈ df0
                 /\ goes_high_cardinality target (datetime_cols a) ct hct' (col, s) = true).
  { intros col. rewrite Hd. apply elem_of_high_cardinality_cols. }
  unfold goes_categorical, goes_high_cardinality in *.
  split; [|intros Hle; split].
  - intros col. rewrite Hc, Hh, Hc', Hh'. split.
    + intros [(s & Hin & H)|(s & Hin & H)];
        apply andb_true_iff in H as [H _];
        destruct (bool_decide (Z.of_nat (nunique (col, s).2) <= hct')) eqn:E;
        [left|right|left|right]; exists s; by rewrite H, E.
    + intros [(s & Hin & H)|(s & Hin & H)];
        apply andb_true_iff in H as [H _];
        destruct (bool_decide (Z.of_nat (nunique (col, s).2) <= hct)) eqn:E;
        [left|right|left|right]; exists s; by rewrite H, E.
  - intros col. rewrite Hc, Hc'. intros (s & Hin & H). exists s. split; [done|].
    apply andb_true_iff in H as [H H']. rewrite H. simpl.
    apply bool_decide_eq_true in H'. apply bool_decide_eq_true. simpl in *. lia.
  - intros col. rewrite Hh, Hh'. intros (s & Hin & H). exists s. split; [done|].
    apply andb_true_iff in H as [H H']. rewrite H. simpl.
    apply negb_true_iff, bool_decide_eq_false in H'.
    apply negb_true_iff, bool_decide_eq_false. simpl in *. lia.
Qed.

(** ** data_overview: the empty table, and bounds *)

Lemma count_true_le (m : list bool) : (count_true m <= length m)%nat.
Proof.
  unfold count_true. induction m as [|b m IH]; simpl; [done|].
  destruct b; simpl; lia.
Qed.

Lemma isnull_sum_le (s : Series) : (isnull_sum s <= length (values s))%nat.
Proof.
  unfold isnull_sum. induction (values s) as [|c l IH]; simpl; [done|].
  destruct (isnull c); simpl; lia.
Qed.

Lemma rectangular_no_rows (df0 : DataFrame) :
  rectangular df0 -> len df0 = 0%nat ->
  forall col s, (col, s) ∈ df0 -> values s = [].
Proof.
  intros Hrect Hlen col s Hin. unfold rectangular in Hrect.
  rewrite Forall_forall in Hrect. specialize (Hrect _ Hin). simpl in Hrect.
  rewrite Hlen in Hrect. by apply nil_length_inv.
Qed.

Lemma no_values_no_missing (l : DataFrame) :
  (forall col s, (col, s) ∈ l -> values s = []) ->
  sum_list (map (fun c => (c.1, isnull_sum c.2)) l).*2 = 0%nat.
Proof.
  induction l as [|[col s] l IH]; intros Hnil; [done|].
  cbn [map fmap list_fmap sum_list sum_list_with snd].
  change (sum_list_with id (list_fmap _ _ snd (map (fun c => (c.1, isnull_sum c.2)) l)))
    with (sum_list (map (fun c : string * Series => (c.1, isnull_sum c.2)) l).*2).
  rewrite IH by (intros c s' Hc; apply (Hnil c); by right).
  unfold isnull_sum. by rewrite (Hnil col s) by (by left).
Qed.

(** On a table without rows the overview does not raise: it reports no
    missing value, no duplicate, and NaN as the percentage of
    duplicates. *)
Theorem overview_of_table_without_rows (self : EDA_Pipeline) :
  rectangular (df self) -> len (df self) = 0%nat ->
  data_overview self = mkOverview 0 (length (df self)) None 0 None.
Proof.
  intros Hrect Hlen. unfold data_overview. rewrite Hlen.
  assert (Hsum : sum_list (map (fun c => (c.1, isnull_sum c.2)) (df self)).*2 = 0%nat).
  { apply no_values_no_missing, (rectangular_no_rows _ Hrect Hlen). }
  rewrite Hsum. rewrite bool_decide_eq_false_2 by lia.
  unfold duplicated, rows. rewrite Hlen. reflexivity.
Qed.

Lemma overview_of_table_without_rows_witness :
  let self := __init__ Examples.parse_two_dates Examples.no_rows None 10 100 in
  ov_duplicates_pct (data_overview self) = None.
Proof.
  intros self. rewrite (overview_of_table_without_rows self).
  - reflexivity.
  - unfold rectangular. apply Forall_forall. intros c Hc. vm_compute in Hc.
    repeat (apply elem_of_cons in Hc as [->|Hc]; [reflexivity|]).
    by apply elem_of_nil in Hc.
  - by vm_compute.
Defined.

Lemma missing_table_entries (self : EDA_Pipeline) (tbl : list (string * nat * Q))
    (r : string * nat * Q) :
  ov_missing (data_overview self) = Some tbl -> r ∈ tbl ->
  (0 < r.1.2)%nat /\ exists s, (r.1.1, s) ∈ df self /\ r.1.2 = isnull_sum s.
Proof.
  unfold data_overview. cbn [ov_missing]. case_bool_decide as Hsum; [|done].
  intros [= <-]. rewrite merge_sort_Permutation, elem_of_List_filter.
  rewrite bool_decide_eq_true. intros [Hr Hpos]. split; [done|].
  apply list_elem_of_fmap in Hr as ([c k] & -> & Hr).
  apply list_elem_of_fmap in Hr as ([col s] & [= -> ->] & Hr).
  by exists s.
Qed.

(** On a table with rows the first row is never a duplicate, so fewer
    rows than the table has are reported as duplicates; and every line of
    the missing-value table reports between 1 and all rows as missing. *)
Theorem overview_bounds (self : EDA_Pipeline) :
  rectangular (df self) -> len (df self) <> 0%nat ->
  let o := data_overview self in
  (ov_duplicates o < ov_rows o)%nat
  /\ forall tbl r, ov_missing o = Some tbl -> r ∈ tbl ->
       (1 <= r.1.2 <= ov_rows o)%nat.
Proof.
  intros Hrect Hlen o. split.
  - unfold o, data_overview. cbn [ov_duplicates ov_rows].
    unfold duplicated. rewrite <- (rows_length (df self)) in Hlen |- *.
    destruct (rows (df self)) as [|r rs]; [done|]. simpl.
    pose proof (count_true_le (duplicated_from [r] rs)) as H.
    rewrite duplicated_from_length in H. unfold count_true in *. simpl. lia.
  - intros tbl r Htbl Hr.
    destruct (missing_table_entries self tbl r Htbl Hr) as (Hpos & s & Hin & Heq).
    destruct r as [[c k] q]. cbn [fst snd] in *. subst k.
    split; [lia|]. unfold o, data_overview. cbn [ov_rows].
    unfold rectangular in Hrect. rewrite Forall_forall in Hrect.
    specialize (Hrect _ Hin). simpl in Hrect. rewrite <- Hrect. apply isnull_sum_le.
Qed.

Lemma visits_rectangular :
  rectangular (df (__init__ Examples.parse_two_dates Examples.visits None 10 100)).
Proof.
  unfold rectangular. apply Forall_forall. intros c Hc. vm_compute in Hc.
  repeat (apply elem_of_cons in Hc as [->|Hc]; [reflexivity|]).
  by apply elem_of_nil in Hc.
Qed.

Lemma overview_bounds_witness :
  let o := data_overview (__init__ Examples.parse_two_dates Examples.visits None 10 100) in
  (ov_duplicates o < ov_rows o)%nat.
Proof.
  intros o.
  exact (proj1 (overview_bounds _ visits_rectangular ltac:(by vm_compute))).
Defined.

(** ** univariate_numerical: the empty table, bounds, constant columns *)

(** On a table without rows the numerical section returns only when
    there is no numerical column to report; with one, its first profile
    divides by [len(self.df) = 0] and the section raises
    ZeroDivisionError. *)
Theorem numerical_section_without_rows (parse_date : cell -> option Z)
    (df0 : DataFrame) (target : option string) (ct hct : Z) :
  NoDup (columns df0) -> len df0 = 0%nat ->
  let self := __init__ parse_date df0 target ct hct in
  univariate_numerical self
  = match numerical_cols self with
    | [] => Ok []
    | _ :: _ => Raise ZeroDivisionError
    end.
Proof.
  intros Hnd Hlen self. unfold univariate_numerical.
  destruct (numerical_cols self) as [|col cols] eqn:E; [done|].
  assert (Hcol : col ∈ numerical_cols self) by (rewrite E; by left).
  apply elem_of_numerical_cols_1 in Hcol as (_ & s & Hin & _).
  cbn [mapM]. unfold numerical_profile at 1, self.
  rewrite (init_getitem _ _ _ _ _ _ s) by done. cbn [bind].
  by rewrite init_len, Hlen, decide_True.
Qed.

Lemma no_rows_labels_unique : NoDup (columns Examples.no_rows).
Proof. apply (bool_decide_unpack _). by vm_compute. Qed.

Lemma numerical_section_without_rows_witness :
  univariate_numerical (__init__ Examples.parse_two_dates Examples.no_rows None 10 100)
  = Raise ZeroDivisionError.
Proof.
  etrans; [apply (numerical_section_without_rows Examples.parse_two_dates
                    Examples.no_rows None 10 100 no_rows_labels_unique)|];
    by vm_compute.
Defined.

Lemma outlier_mask_le_nums (s : Series) (Q1 Q3 : flt) :
  (count_true (outlier_mask s Q1 Q3) <= length (nums (values s)))%nat.
Proof.
  unfold outlier_mask, count_true, nums.
  generalize (fsub Q1 (fmul (Some (3 # 2)) (fsub Q3 Q1))).
  generalize (fadd Q3 (fmul (Some (3 # 2)) (fsub Q3 Q1))).
  intros hi lo. induction (values s) as [|c l IH]; [done|].
  destruct c as [|x|str|t]; cbn [map omap list_omap length];
    fold (omap (fun c => match c with Num q => Some q | _ => None end) l);
    [exact IH | | exact IH | exact IH].
  destruct (cell_lt (Num x) lo || cell_gt (Num x) hi); cbn [List.filter id length]; lia.
Qed.

Lemma nums_length_le (l : list cell) : (length (nums l) <= length l)%nat.
Proof.
  unfold nums. induction l as [|c l IH]; [done|].
  destruct c; cbn [omap list_omap length];
    fold (omap (fun c => match c with Num q => Some q | _ => None end) l); lia.
Qed.

(** Only numbers are counted as outliers: the outlier count of a profile
    is at most its count of non-null values, which is at most the number
    of cells of the column. *)
Theorem outliers_at_most_count (self : EDA_Pipeline) (col : string) (s : Series) :
  getitem (df self) col = Ok s -> len (df self) <> 0%nat ->
  exists p, numerical_profile self col = Ok p
    /\ (np_outliers p <= np_count p <= length (values s))%nat.
Proof.
  intros Hget Hlen. unfold numerical_profile. rewrite Hget. cbn [bind].
  rewrite decide_False by done. eexists. split; [done|].
  cbn [np_outliers np_count]. split; [apply outlier_mask_le_nums | apply nums_length_le].
Qed.

Lemma outliers_at_most_count_witness :
  let self := __init__ Examples.parse_two_dates Examples.sales None 2 100 in
  exists p, numerical_profile self "price" = Ok p
    /\ (np_outliers p <= np_count p <= 9)%nat.
Proof.
  intros self.
  apply (outliers_at_most_count self "price" Examples.prices); by vm_compute.
Defined.

Lemma nth_Forall {A} (P : A -> Prop) (l : list A) (i : nat) (d : A) :
  Forall P l -> P d -> P (nth i l d).
Proof.
  intros Hl Hd. revert i. induction Hl as [|x l Hx Hl IH]; intros [|i]; simpl; auto.
Qed.

Lemma quantile_constant (s : Series) (q v : Q) :
  nums (values s) <> [] -> Forall (fun x => x == v)%Q (nums (values s)) ->
  exists r, quantile s q = Some r /\ (r == v)%Q.
Proof.
  intros Hne Hall. unfold quantile.
  assert (Hsorted : Forall (fun x => x == v)%Q (merge_sort Qle (nums (values s)))).
  { by rewrite merge_sort_Permutation. }
  destruct (merge_sort Qle (nums (values s))) as [|a0 a] eqn:E.
  { destruct Hne. pose proof (merge_sort_Permutation Qle (nums (values s))) as HP.
    rewrite E in HP. by apply Permutation_nil in HP. }
  eexists. split; [done|].
  assert (Ha0 : (a0 == v)%Q) by (by inversion Hsorted).
  assert (Hnth : forall i, (nth i (a0 :: a) a0 == v)%Q).
  { intros i. by apply (nth_Forall (fun x => x == v)%Q). }
  rewrite (Hnth (Z.to_nat _)), (Hnth (Nat.min _ _)).
  generalize (q * inject_Z (Z.of_nat (length (a0 :: a) - 1))
              - inject_Z (Qfloor (q * inject_Z (Z.of_nat (length (a0 :: a) - 1)))))%Q.
  intros frac. ring.
Qed.

(** A column whose non-null values are all the same number has both
    quartiles equal to that number and no outlier. *)
Theorem constant_column_has_no_outliers (self : EDA_Pipeline) (col : string)
    (s : Series) (v : Q) :
  getitem (df self) col = Ok s -> len (df self) <> 0%nat ->
  nums (values s) <> [] -> Forall (fun x => x == v)%Q (nums (values s)) ->
  exists p q1 q3, numerical_profile self col = Ok p
    /\ np_Q1 p = Some q1 /\ np_Q3 p = Some q3
    /\ (q1 == v)%Q /\ (q3 == v)%Q /\ np_outliers p = 0%nat.
Proof.
  intros Hget Hlen Hne Hall. unfold numerical_profile. rewrite Hget. cbn [bind].
  rewrite decide_False by done.
  destruct (quantile_constant s (1 # 4) v Hne Hall) as (q1 & E1 & H1).
  destruct (quantile_constant s (3 # 4) v Hne Hall) as (q3 & E3 & H3).
  eexists; exists q1, q3. split; [done|].
  cbn [np_Q1 np_Q3 np_outliers]. rewrite E1, E3. repeat split; try done.
  unfold outlier_mask, count_true. cbn [fsub fmul fadd].
  clear Hget Hne E1 E3. unfold nums in Hall.
  induction (values s) as [|c l IH]; [done|].
  destruct c as [|x|str|t]; cbn [map List.filter cell_lt cell_gt orb id] in *;
    try (apply IH; done).
  cbn [omap list_omap] in Hall. apply Forall_cons in Hall as [Hx Hall].
  assert (E : Qlt_bool x (q1 - (3 # 2) * (q3 - q1)) || Qlt_bool (q3 + (3 # 2) * (q3 - q1)) x
              = false).
  { apply orb_false_iff. split; apply not_true_is_false; intros H%Qlt_bool_iff; lra. }
  rewrite E. by apply IH.
Qed.

Lemma constant_column_has_no_outliers_witness :
  let flat := mkSeries DFloat64 [Num 7; Null; Num 7; Num 7] in
  let self := mkEDA [("fee", flat)] None 10 100 [] ["fee"] [] [] in
  exists p q1 q3, numerical_profile self "fee" = Ok p
    /\ np_Q1 p = Some q1 /\ np_Q3 p = Some q3
    /\ (q1 == 7)%Q /\ (q3 == 7)%Q /\ np_outliers p = 0%nat.
Proof.
  intros flat self.
  apply (constant_column_has_no_outliers self "fee" flat 7).
  - reflexivity.
  - by vm_compute.
  - by vm_compute.
  - by repeat constructor.
Defined.

(** ** univariate_categorical: the frequency table counts every value once *)








Lemma List_filter_all {A} (f : A -> bool) (l : list A) :
  (forall x, x ∈ l -> f x = true) -> List.filter f l = l.
Proof.
  induction l as [|x l IH]; intros H; [done|]. simpl.
  rewrite (H x) by (by left). f_equal. apply IH. intros y Hy. apply H. by right.
Qed.
















(** ** univariate_datetime: zero-filled bars, empty columns *)

Lemma count_of_cons (v x : Z) (l : list Z) :
  count_of v (x :: l) = ((if (v =? x)%Z then 1 else 0) + count_of v l)%nat.
Proof. unfold count_of. simpl. by destruct (v =? x). Qed.

Lemma sum_list_map_add {A} (f g : A -> nat) (l : list A) :
  sum_list (map (fun i => f i + g i)%nat l)
  = (sum_list (map f l) + sum_list (map g l))%nat.
Proof. induction l as [|a l IH]; simpl in *; [done|]. rewrite IH. lia. Qed.

Lemma indicator_sum (first x : Z) (a n : nat) :
  sum_list (map (fun i => if (first + Z.of_nat i =? x)%Z then 1%nat else 0%nat) (seq a n))
  = if bool_decide (first + Z.of_nat a <= x < first + Z.of_nat a + Z.of_nat n)
    then 1%nat else 0%nat.
Proof.
  revert a. induction n as [|n IH]; intros a.
  - simpl. rewrite bool_decide_eq_false_2 by lia. done.
  - cbn [seq map sum_list sum_list_with]. 
    change (sum_list_with id (map ?f ?l)) with (sum_list (map f l)).
    rewrite IH. destruct (first + Z.of_nat a =? x) eqn:E.
    + apply Z.eqb_eq in E. rewrite bool_decide_eq_false_2 by lia.
      rewrite bool_decide_eq_true_2 by lia. done.
    + apply Z.eqb_neq in E. cbn [Nat.add].
      by rewrite (bool_decide_ext
                    (first + Z.of_nat (S a) <= x < first + Z.of_nat (S a) + Z.of_nat n)
                    (first + Z.of_nat a <= x < first + Z.of_nat a + Z.of_nat (S n)))
        by lia.
Qed.

Lemma bars_total (first : Z) (n : nat) (l : list Z) :
  Forall (fun x => first <= x < first + Z.of_nat n) l ->
  sum_list (bars first n l) = length l.
Proof.
  unfold bars. induction 1 as [|x l Hx Hl IH].
  - induction (seq 0 n) as [|i rest IHs]; [done|]. simpl in *. by rewrite IHs.
  - rewrite (map_ext _ (fun i => (if (first + Z.of_nat i =? x)%Z then 1 else 0)
                                  + count_of (first + Z.of_nat i) l)%nat)
      by (intros i; apply count_of_cons).
    rewrite sum_list_map_add, IH, indicator_sum.
    rewrite bool_decide_eq_true_2 by lia. done.
Qed.

Lemma bars_length (first : Z) (n : nat) (l : list Z) : length (bars first n l) = n.
Proof. unfold bars. by rewrite length_map, length_seq. Qed.

Lemma counts_by_index_keys (l : list Z) (v : Z) (k : nat) :
  (v, k) ∈ counts_by_index l -> v ∈ l.
Proof.
  unfold counts_by_index. intros (v' & Heq & Hv)%list_elem_of_fmap.
  inversion Heq; subst. rewrite merge_sort_Permutation in Hv.
  by apply elem_of_remove_dups.
Qed.

Lemma mode_subseteq (l : list Z) (m : Z) : m ∈ mode l -> m ∈ l.
Proof.
  unfold mode. intros ([v k] & -> & [Hin _]%elem_of_List_filter)%list_elem_of_fmap.
  by eapply counts_by_index_keys.
Qed.

Lemma hd_error_elem_of {A} (l : list A) (x : A) : hd_error l = Some x -> x ∈ l.
Proof. destruct l; simpl; [done|]. intros [= ->]. by left. Qed.

Lemma py_index_in_range {A} (l : list A) (i : Z) :
  0 <= i < Z.of_nat (length l) -> exists a, py_index l i = Ok a.
Proof.
  intros Hi. unfold py_index. cbv zeta.
  rewrite (decide_False (P := i < 0)) by lia.
  rewrite (decide_True (P := 0 <= i < Z.of_nat (length l))) by lia.
  destruct (lookup_lt_is_Some_2 l (Z.to_nat i)) as [a ->]; [lia|]. by exists a.
Qed.

Lemma timestamps_length (s : Series) :
  (length (timestamps s) + isnull_sum s <= length (values s))%nat.
Proof.
  unfold timestamps, isnull_sum. induction (values s) as [|c l IH]; [done|].
  destruct c; cbn [omap list_omap List.filter isnull length] in *;
    fold (omap (fun c => match c with Date t => Some t | _ => None end) l) in *; lia.
Qed.

Section DatetimeSection.

Variables year month dayofweek hour quarter : Z -> Z.
Variable days : Z -> Z.

(** For a datetime column, with a calendar whose days of the week are
    0 to 6, months 1 to 12 and quarters 1 to 4, the profile is produced
    and its three bar charts have 12, 7 and 4 bars; the bars of each chart
    add up to the number of dates of the column, so every date falls in
    exactly one bar and absent months, days and quarters get a zero. *)
Theorem datetime_bars_count_every_date (self : EDA_Pipeline) (col : string)
    (s : Series) :
  getitem (df self) col = Ok s -> dtype_of s = DDatetime64 ->
  (forall t, 0 <= dayofweek t <= 6) -> (forall t, 1 <= month t <= 12) ->
  (forall t, 1 <= quarter t <= 4) ->
  exists p, datetime_profile year month dayofweek hour quarter days self col = Ok p
    /\ length (dp_month_bars p) = 12%nat /\ length (dp_dow_bars p) = 7%nat
    /\ length (dp_quarter_bars p) = 4%nat
    /\ sum_list (dp_month_bars p) = length (timestamps s)
    /\ sum_list (dp_dow_bars p) = length (timestamps s)
    /\ sum_list (dp_quarter_bars p) = length (timestamps s)
    /\ (length (timestamps s) + dp_missing p <= length (values s))%nat.
Proof.
  intros Hget Hdt Hdow Hmonth Hquarter. unfold datetime_profile.
  rewrite Hget. cbn [bind]. unfold is_datetime64_any_dtype.
  rewrite bool_decide_eq_true_2 by done. cbn [negb].
  assert (Hmode : exists r,
    match hd_error (mode (map dayofweek (timestamps s))) with
    | Some m => name <- py_index dow_names m ;; Ok (Some name)
    | None => Ok None
    end = Ok r).
  { destruct (hd_error _) as [m|] eqn:E; [|by eexists].
    destruct (py_index_in_range dow_names m) as [a ->]; [|by eexists].
    apply hd_error_elem_of, mode_subseteq, list_elem_of_fmap in E as (t & -> & _).
    specialize (Hdow t). simpl. lia. }
  destruct Hmode as [r ->]. cbn [bind]. eexists. split; [done|].
  cbn [dp_month_bars dp_dow_bars dp_quarter_bars dp_missing].
  rewrite !bars_length.
  rewrite !bars_total, !length_map;
    [ repeat split; try done; apply timestamps_length | | | ];
    apply Forall_forall; intros x (t & -> & _)%list_elem_of_fmap.
  - specialize (Hquarter t). lia.
  - specialize (Hdow t). lia.
  - specialize (Hmonth t). lia.
Qed.

(** A datetime column without any date: the earliest and latest dates
    and the range are NaT/NaN, every bar is zero, the year and hour
    charts are replaced by their texts, the timeline is empty and every
    "Most common" line reads N/A; nothing raises. *)
Theorem datetime_profile_without_dates (self : EDA_Pipeline) (col : string)
    (s : Series) :
  getitem (df self) col = Ok s -> dtype_of s = DDatetime64 ->
  Forall (eq Null) (values s) ->
  datetime_profile year month dayofweek hour quarter days self col
  = Ok (mkDatetimeProfile col None None None (length (values s))
          (if decide (len (df self) = 0%nat) then None
           else Some (round2 (pct (length (values s)) (len (df self)))))
          None (replicate 12 0%nat) (replicate 7 0%nat) None (replicate 4 0%nat)
          [] None None None None).
Proof.
  intros Hget Hdt Hnull. unfold datetime_profile.
  rewrite Hget. cbn [bind]. unfold is_datetime64_any_dtype.
  rewrite bool_decide_eq_true_2 by done. cbn [negb].
  assert (Hts : timestamps s = []).
  { unfold timestamps. induction Hnull as [|c l <- _ IH]; [done|]. exact IH. }
  assert (Hmiss : isnull_sum s = length (values s)).
  { unfold isnull_sum. induction Hnull as [|c l <- _ IH]; [done|]. simpl. by rewrite IH. }
  rewrite Hts, Hmiss. reflexivity.
Qed.

End DatetimeSection.

Lemma toy_calendar_ranges :
  (forall t, 0 <= Examples.toy_dayofweek t <= 6)
  /\ (forall t, 1 <= Examples.toy_month t <= 12)
  /\ (forall t, 1 <= Examples.toy_quarter t <= 4).
Proof.
  unfold Examples.toy_dayofweek, Examples.toy_month, Examples.toy_quarter.
  repeat split.
  - pose proof (Z.mod_pos_bound (t `div` 24) 7). lia.
  - pose proof (Z.mod_pos_bound (t `div` 24) 7). lia.
  - pose proof (Z.mod_pos_bound (t `div` 720) 12). lia.
  - pose proof (Z.mod_pos_bound (t `div` 720) 12). lia.
  - pose proof (Z.mod_pos_bound (t `div` 720) 12).
    pose proof (Z.div_pos ((t `div` 720) `mod` 12) 3). lia.
  - pose proof (Z.mod_pos_bound (t `div` 720) 12).
    assert (((t `div` 720) `mod` 12) `div` 3 < 4) by (apply Z.div_lt_upper_bound; lia).
    lia.
Qed.

Lemma datetime_bars_count_every_date_witness :
  let self := __init__ Examples.parse_two_dates Examples.deliveries None 10 100 in
  exists p, datetime_profile Examples.toy_year Examples.toy_month Examples.toy_dayofweek
              Examples.toy_hour Examples.toy_quarter Examples.toy_days self "delivered"
            = Ok p
    /\ sum_list (dp_month_bars p) = 3%nat.
Proof.
  intros self. destruct toy_calendar_ranges as (Hd & Hm & Hq).
  destruct (datetime_bars_count_every_date Examples.toy_year Examples.toy_month
              Examples.toy_dayofweek Examples.toy_hour Examples.toy_quarter
              Examples.toy_days self "delivered"
              (mkSeries DDatetime64 [Date 30; Date 800; Null; Date 54]))
    as (p & Hp & _ & _ & _ & Hsum & _);
    [by vm_compute | reflexivity | exact Hd | exact Hm | exact Hq |].
  exists p. split; [exact Hp | exact Hsum].
Defined.

Lemma datetime_profile_without_dates_witness :
  let self := __init__ Examples.parse_two_dates Examples.returned None 10 100 in
  exists p, datetime_profile Examples.toy_year Examples.toy_month Examples.toy_dayofweek
              Examples.toy_hour Examples.toy_quarter Examples.toy_days self "note"
            = Ok p
    /\ dp_month_bars p = replicate 12 0%nat /\ dp_mode_dow p = None.
Proof.
  intros self. eexists. split.
  - apply (datetime_profile_without_dates _ _ _ _ _ _ self "note"
             (mkSeries DDatetime64 [Null; Null])).
    + by vm_compute.
    + reflexivity.
    + by repeat constructor.
  - split; reflexivity.
Defined.

Lemma coerced_dtype parse_date (s : Series) :
  qualifies_datetime parse_date s = true ->
  dtype_of (coerced parse_date s) = DDatetime64.
Proof.
  unfold qualifies_datetime, parses, coerced. intros Hq.
  destruct (is_datetime64_any_dtype s) eqn:E.
  { by apply bool_decide_eq_true in E. }
  destruct (is_object_or_string s); [|done].
  unfold to_datetime in *. by destruct (mapM _ (values s)).
Qed.

Lemma mapM_labels {A B} (f : A -> result B) (g : B -> A) (l : list A) :
  (forall a, a ∈ l -> exists b, f a = Ok b /\ g b = a) ->
  exists bs, mapM f l = Ok bs /\ map g bs = l.
Proof.
  induction l as [|a l IH]; intros H; simpl; [by exists []|].
  destruct (H a) as (b & Hb & Hg); [by left|]. rewrite Hb. simpl.
  destruct IH as (bs & Hbs & Hgs); [intros a' Ha'; apply H; by right|].
  rewrite Hbs. simpl. exists (b :: bs). split; [done|]. simpl. by rewrite Hg, Hgs.
Qed.

Section DatetimeSectionCompletes.

Variables year month dayofweek hour quarter : Z -> Z.
Variable days : Z -> Z.

Lemma datetime_profile_exists (self : EDA_Pipeline) (col : string) (s : Series) :
  getitem (df self) col = Ok s -> dtype_of s = DDatetime64 ->
  (forall t, 0 <= dayofweek t <= 6) ->
  exists p, datetime_profile year month dayofweek hour quarter days self col = Ok p
            /\ dp_col p = col.
Proof.
  intros Hget Hdt Hdow. unfold datetime_profile.
  rewrite Hget. cbn [bind]. unfold is_datetime64_any_dtype.
  rewrite bool_decide_eq_true_2 by done. cbn [negb].
  destruct (hd_error _) as [m|] eqn:E; [|by eexists].
  destruct (py_index_in_range dow_names m) as [a ->]; [|by eexists].
  apply hd_error_elem_of, mode_subseteq, list_elem_of_fmap in E as (t & -> & _).
  specialize (Hdow t). simpl. lia.
Qed.


End DatetimeSectionCompletes.


(** ** correlation_matrix: the columns correlated, the absent target *)

#[local] Instance corr_ge_total : Total corr_ge.
Proof.
  intros [a [x|]] [b [y|]]; unfold corr_ge; simpl; auto.
  destruct (Qlt_le_dec x y) as [H|H]; [right; by apply Qlt_le_weak | by left].
Qed.

#[local] Instance corr_ge_trans : Transitive corr_ge.
Proof.
  intros [a [x|]] [b [y|]] [c [z|]]; unfold corr_ge; simpl; try done.
  intros H1 H2. by eapply Qle_trans.
Qed.

Lemma getitem_absent (df0 : DataFrame) (col : string) :
  col ∉ columns df0 -> getitem df0 col = Raise (KeyError col).
Proof.
  unfold columns. induction df0 as [|[c s] df0 IH]; simpl; [done|].
  intros [Hne H]%not_elem_of_cons. rewrite decide_False by done. by apply IH.
Qed.

Lemma filter_on_labels {B} (p : string -> bool) (l : list (string * B)) :
  (List.filter (fun r => p r.1) l).*1 = List.filter p l.*1.
Proof.
  induction l as [|[c b] l IH]; [done|]. cbn [List.filter fmap list_fmap fst].
  fold (fmap (M := list) (@fst string B)) in *.
  destruct (p c); cbn [List.filter fmap list_fmap fst];
    fold (fmap (M := list) (@fst string B)); by rewrite IH.
Qed.

Lemma init_columns parse_date df0 target ct hct :
  NoDup (columns df0) ->
  columns (df (__init__ parse_date df0 target ct hct)) = columns df0.
Proof.
  intros Hnd. rewrite init_df by done. unfold columns.
  rewrite <- list_fmap_compose. by apply list_fmap_ext.
Qed.

Lemma init_target_col parse_date df0 target ct hct :
  target_col (__init__ parse_date df0 target ct hct) = target.
Proof. by rewrite init_unfold. Qed.

Section CorrelationSection.

Variable corr : Series -> Series -> flt.
Variable parse_date : cell -> option Z.
Variables (df0 : DataFrame) (ct hct : Z).
Hypothesis labels_unique : NoDup (columns df0).

Lemma numerical_series_exist target :
  exists sub, mapM (getitem (df (__init__ parse_date df0 target ct hct)))
                (numerical_cols (__init__ parse_date df0 target ct hct)) = Ok sub
              /\ length sub
                 = length (numerical_cols (__init__ parse_date df0 target ct hct)).
Proof using labels_unique.
  destruct (mapM_ok (getitem (df (__init__ parse_date df0 target ct hct)))
              (numerical_cols (__init__ parse_date df0 target ct hct))) as [sub Hsub].
  - intros col (_ & s & Hin & _)%elem_of_numerical_cols_1.
    rewrite (init_getitem _ _ _ _ _ _ s) by done. by eexists.
  - exists sub. split; [done|]. by apply mapM_length in Hsub.
Qed.

Lemma mapM_app {A B} (f : A -> result B) (l1 l2 : list A) (b1 b2 : list B) :
  mapM f l1 = Ok b1 -> mapM f l2 = Ok b2 -> mapM f (l1 ++ l2) = Ok (b1 ++ b2).
Proof.
  revert b1. induction l1 as [|a l1 IH]; intros b1; simpl.
  - by intros [= <-].
  - destruct (f a); simpl; [|done]. destruct (mapM f l1) as [bs|]; simpl; [|done].
    intros [= <-] H2. by rewrite (IH bs eq_refl H2).
Qed.

(** With at least two numerical columns and a target that is an int64 or
    float64 column of the table, the target is appended to the numerical
    columns, once; the matrix is square over these columns, and the "Top
    correlations" table has one line for each numerical column, none for
    the target itself, sorted by descending correlation with NaN last. *)
Theorem correlation_with_numeric_target (t : string) (s : Series) :
  (t, s) ∈ df0 -> is_int64_or_float64 s = true -> t <> "" ->
  let self := __init__ parse_date df0 (Some t) ct hct in
  (2 <= length (numerical_cols self))%nat ->
  exists r tbl, correlation_matrix corr self = Ok (Some r)
    /\ cr_cols r = numerical_cols self ++ [t] /\ NoDup (cr_cols r)
    /\ length (cr_matrix r) = length (cr_cols r)
    /\ Forall (fun row => length row = length (cr_cols r)) (cr_matrix r)
    /\ cr_target r = Some tbl
    /\ tbl.*1 ≡ₚ numerical_cols self
    /\ StronglySorted corr_ge tbl.
Proof using labels_unique.
  intros Hin Hnum Ht self Hlen.
  assert (Hget : getitem (df self) t = Ok s).
  { unfold self. rewrite (init_getitem _ _ _ _ _ _ s) by done. unfold coerced.
    by rewrite numeric_not_datetime64, numeric_not_text. }
  assert (Htn : t ∉ numerical_cols self) by (by apply target_not_numerical).
  destruct (numerical_series_exist (Some t)) as (sub & Hsub & Hsublen). fold self in Hsub, Hsublen.
  assert (Hall : mapM (getitem (df self)) (numerical_cols self ++ [t]) = Ok (sub ++ [s])).
  { apply mapM_app; [done|]. simpl. by rewrite Hget. }
  assert (Htc : target_col self = Some t) by apply init_target_col.
  unfold correlation_matrix, cols_for_corr.
  rewrite bool_decide_eq_false_2 by lia. rewrite !Htc. unfold truthy.
  rewrite (bool_decide_eq_false_2 (t = "")) by done. cbn [negb].
  rewrite Hget. cbn [bind]. rewrite Hnum. cbn [bind]. rewrite Hall. cbn [bind].
  rewrite bool_decide_eq_true_2 by (apply elem_of_app; right; by left).
  cbn [bind]. eexists _, _. split; [done|].
  cbn [cr_cols cr_matrix cr_target].
  assert (Hlens : length (numerical_cols self ++ [t]) = length (sub ++ [s]))
    by (rewrite !length_app; simpl; lia).
  split; [done|]. split.
  { apply NoDup_app. split; [|split].
    - eapply sublist_NoDup; [exact labels_unique | apply numerical_cols_sublist].
    - intros x Hx [->|[]%elem_of_nil]%elem_of_cons. done.
    - apply NoDup_singleton. }
  split; [by rewrite length_map|]. split.
  { apply Forall_forall. intros row (a & -> & _)%list_elem_of_fmap.
    by rewrite length_map. }
  split; [done|]. split; [|apply StronglySorted_merge_sort; apply _].
  rewrite merge_sort_Permutation.
  set (L := zip _ _).
  pose (p := fun c : string => negb (bool_decide (c = t))).
  change ((List.filter (fun r : string * flt => p r.1) L).*1 ≡ₚ numerical_cols self).
  rewrite (filter_on_labels p). unfold L, p.
  rewrite fst_zip by (rewrite length_map; lia).
  rewrite List.filter_app. simpl. rewrite bool_decide_eq_true_2 by done. simpl.
  rewrite app_nil_r, List_filter_all; [done|].
  intros x Hx. apply negb_true_iff, bool_decide_eq_false. by intros ->.
Qed.

(** The constructor accepts a target that is not a column of the table;
    with at least two numerical columns, [correlation_matrix] then
    raises KeyError for it. *)
Theorem correlation_with_absent_target (t : string) :
  t ∉ columns df0 -> t <> "" ->
  let self := __init__ parse_date df0 (Some t) ct hct in
  (2 <= length (numerical_cols self))%nat ->
  correlation_matrix corr self = Raise (KeyError t).
Proof using labels_unique.
  intros Hin Ht self Hlen.
  assert (Htc : target_col self = Some t) by apply init_target_col.
  unfold correlation_matrix, cols_for_corr.
  rewrite bool_decide_eq_false_2 by lia. rewrite !Htc. unfold truthy.
  rewrite (bool_decide_eq_false_2 (t = "")) by done. cbn [negb].
  rewrite getitem_absent; [done|]. unfold self. by rewrite init_columns.
Qed.

End CorrelationSection.

Lemma orders_labels_unique : NoDup (columns Examples.orders).
Proof. apply (bool_decide_unpack _). by vm_compute. Qed.

Lemma correlation_with_numeric_target_witness :
  let self := __init__ Examples.parse_two_dates Examples.orders (Some "review_score") 2 100 in
  exists r, correlation_matrix Examples.no_corr self = Ok (Some r)
    /\ cr_cols r = ["price"; "freight"; "review_score"].
Proof.
  intros self.
  destruct (correlation_with_numeric_target Examples.no_corr Examples.parse_two_dates
              Examples.orders 2 100 orders_labels_unique "review_score"
              (mkSeries DInt64 [Num 5; Num 4; Num 1]))
    as (r & tbl & H1 & H2 & _).
  - unfold Examples.orders. by repeat constructor.
  - reflexivity.
  - discriminate.
  - by vm_compute.
  - exists r. split; [exact H1|]. etrans; [exact H2|]. by vm_compute.
Defined.

Lemma correlation_with_absent_target_witness :
  correlation_matrix Examples.no_corr
    (__init__ Examples.parse_two_dates Examples.reviews (Some "rating") 2 100)
  = Raise (KeyError "rating").
Proof.
  apply (correlation_with_absent_target Examples.no_corr Examples.parse_two_dates
           Examples.reviews 2 100 reviews_labels_unique "rating").
  - apply (bool_decide_unpack _). by vm_compute.
  - discriminate.
  - by vm_compute.
Defined.

(** ** multivariate_analysis: the pairs of categorical columns *)

Lemma pairs_length {A} (l : list A) :
  (2 * length (pairs l) = length l * (length l - 1))%nat.
Proof.
  induction l as [|a l IH]; [done|]. cbn [pairs length].
  rewrite length_app, length_map. nia.
Qed.

Lemma elem_of_pairs {A} (l : list A) (a b : A) :
  (a, b) ∈ pairs l
  <-> exists i j, (i < j)%nat /\ l !! i = Some a /\ l !! j = Some b.
Proof.
  revert a b. induction l as [|x l IH]; intros a b; cbn [pairs].
  - split; [by intros []%elem_of_nil | by intros (i & j & _ & H & _)].
  - rewrite elem_of_app, list_elem_of_fmap, IH. split.
    + intros [(y & [= -> ->] & Hy)|(i & j & Hij & Hi & Hj)].
      * apply list_elem_of_lookup in Hy as [j Hj]. exists 0%nat, (S j).
        repeat split; [lia | done].
      * exists (S i), (S j). repeat split; [lia | done | done].
    + intros (i & j & Hij & Hi & Hj). destruct j as [|j]; [lia|].
      destruct i as [|i]; simpl in *.
      * left. exists b. inversion Hi; subst. split; [done|].
        by eapply list_elem_of_lookup_2.
      * right. exists i, j. repeat split; [lia | done | done].
Qed.

Lemma mapM_Forall2 {A B} (f : A -> result B) (l : list A) (bs : list B) :
  mapM f l = Ok bs -> Forall2 (fun a b => f a = Ok b) l bs.
Proof.
  revert bs. induction l as [|a l IH]; intros bs; simpl.
  - intros [= <-]. constructor.
  - destruct (f a) as [b|] eqn:E; simpl; [|done].
    destruct (mapM f l) as [bs'|]; simpl; [|done].
    intros [= <-]. constructor; [done | by apply IH].
Qed.

Section MultivariateSection.

Variable Pivot : Type.
Variable pivot_mean : DataFrame -> string -> string -> string -> result Pivot.

(** When the section runs, it analyses each pair of the sample
    [categorical_cols[:max_combinations]] once, the earlier column first,
    in the order of the nested loop: [k (k - 1) / 2] tables for a sample
    of [k] columns, so at most 10 for the default of 5. *)
Theorem multivariate_pairs (self : EDA_Pipeline) (max_combinations : Z)
    (tables : list (string * string * Pivot)) :
  multivariate_analysis Pivot pivot_mean self max_combinations = Ok (Some tables) ->
  let sample := py_slice_to max_combinations (categorical_cols self) in
  tables.*1 = pairs sample
  /\ (2 * length tables = length sample * (length sample - 1))%nat
  /\ (0 <= max_combinations -> (length sample <= Z.to_nat max_combinations)%nat)
  /\ (max_combinations = 5 -> (length tables <= 10)%nat)
  /\ forall c1 c2 p, (c1, c2, p) ∈ tables ->
       exists i j, (i < j)%nat /\ categorical_cols self !! i = Some c1
                   /\ categorical_cols self !! j = Some c2.
Proof.
  intros Hrun sample. unfold multivariate_analysis in Hrun.
  destruct (target_col self) as [target|]; [|done].
  case_bool_decide; [done|]. fold sample in Hrun.
  destruct (mapM _ (pairs sample)) as [ts|] eqn:E; [|done].
  simpl in Hrun. injection Hrun as <-.
  apply mapM_Forall2 in E.
  assert (Hfst : ts.*1 = pairs sample).
  { induction E as [|c r cs rs Hc _ IH]; [done|].
    rewrite fmap_cons, IH. f_equal.
    destruct (pivot_mean _ _ _ _); [|done]. simpl in Hc. injection Hc as <-.
    simpl. by destruct c. }
  assert (Hlen : (2 * length ts = length sample * (length sample - 1))%nat).
  { rewrite <- pairs_length, <- Hfst. by rewrite length_fmap. }
  assert (Hsample : 0 <= max_combinations ->
                    (length sample <= Z.to_nat max_combinations)%nat).
  { intros Hm. unfold sample, py_slice_to. rewrite decide_True by done.
    rewrite length_take. lia. }
  split; [done|]. split; [done|]. split; [done|]. split.
  - intros ->. specialize (Hsample ltac:(lia)).
    change (Z.to_nat 5) with 5%nat in Hsample. nia.
  - intros c1 c2 p Hin.
    assert (Hp : (c1, c2) ∈ pairs sample).
    { rewrite <- Hfst. apply list_elem_of_fmap. by exists (c1, c2, p). }
    apply elem_of_pairs in Hp as (i & j & Hij & Hi & Hj). exists i, j.
    split; [done|]. unfold sample, py_slice_to in Hi, Hj.
    destruct (decide (0 <= max_combinations));
      rewrite lookup_take_Some in Hi, Hj; by destruct Hi, Hj.
Qed.

End MultivariateSection.

Lemma multivariate_pairs_witness :
  let self := __init__ Examples.parse_two_dates Examples.orders (Some "review_score") 2 100 in
  exists tables, multivariate_analysis unit Examples.unit_pivot self 5 = Ok (Some tables)
    /\ tables.*1 = [("status", "channel"); ("status", "region"); ("channel", "region")].
Proof.
  intros self. eexists. split; [by vm_compute|].
  etrans; [apply (multivariate_pairs unit Examples.unit_pivot self 5); by vm_compute|].
  by vm_compute.
Defined.

(** ** cast_data_types: the table's labels, a run that succeeds, a label
       the table lacks *)

Lemma getitem_present (df0 : DataFrame) (col : string) (s : Series) :
  getitem df0 col = Ok s -> col ∈ columns df0.
Proof.
  unfold columns. induction df0 as [|[c s0] df0 IH]; simpl; [done|].
  destruct (decide (c = col)) as [->|Hne]; [by left|]. right. by apply IH.
Qed.

Lemma setitem_columns (df0 : DataFrame) (col : string) (s : Series) :
  col ∈ columns df0 -> columns (setitem df0 col s) = columns df0.
Proof.
  unfold columns. induction df0 as [|[c s0] df0 IH]; simpl.
  - by intros []%elem_of_nil.
  - intros Hin. destruct (decide (c = col)) as [->|Hne]; [done|]. simpl. f_equal.
    apply IH. by apply elem_of_cons in Hin as [->|Hin].
Qed.

Section CastingSection.

Variable parse_date : cell -> option Z.
Variable astype : string -> Series -> result Series.

Lemma cast_loop_columns (type_mapping : list (string * string)) (df0 : DataFrame) :
  columns (cast_loop parse_date astype df0 type_mapping).1 = columns df0.
Proof.
  revert df0. induction type_mapping as [|[c t] rest IH]; intros df0; [done|].
  cbn [cast_loop]. unfold cast_column.
  destruct (getitem df0 c) as [s|e] eqn:Hget; [|done]. cbn [bind].
  destruct (cast_value _ _ t s) as [s'|e]; [|done].
  rewrite IH. apply setitem_columns. by eapply getitem_present.
Qed.

(** The function never adds, drops or reorders a column: whatever the
    mapping and however the call ends, the caller's table has the labels it
    had, in the same order; only the series under them are replaced. *)
Theorem cast_keeps_the_columns (df0 : DataFrame)
    (type_mapping : list (string * string)) :
  columns (frame_after (cast_data_types parse_date astype df0 type_mapping))
  = columns df0.
Proof.
  unfold cast_data_types.
  pose proof (cast_loop_columns type_mapping df0) as H.
  by destruct (cast_loop _ _ _ _) as [df' [e|]].
Qed.

Lemma cast_loop_unknown_column (type_mapping : list (string * string))
    (df0 : DataFrame) (c t : string) :
  (c, t) ∈ type_mapping -> c ∉ columns df0 ->
  exists e, (cast_loop parse_date astype df0 type_mapping).2 = Some e.
Proof.
  revert df0. induction type_mapping as [|[c0 t0] rest IH]; intros df0 Hin Hc.
  - by apply elem_of_nil in Hin.
  - cbn [cast_loop]. unfold cast_column.
    destruct (getitem df0 c0) as [s|e] eqn:Hget; [|by exists e]. cbn [bind].
    destruct (cast_value _ _ t0 s) as [s'|e]; [|by exists e].
    apply elem_of_cons in Hin as [[= <- <-]|Hin].
    + exfalso. apply Hc. by eapply getitem_present.
    + apply IH; [done|]. rewrite setitem_columns; [done|]. by eapply getitem_present.
Qed.

(** A mapping that names a label the table lacks never gets to the report:
    the call ends with an exception and prints nothing, wherever the entry
    stands in the mapping.  When every entry before it casts, the
    exception is the [KeyError] of that label. *)
Theorem cast_unknown_column (df0 : DataFrame)
    (pre post : list (string * string)) (c t : string) :
  c ∉ columns df0 ->
  let out := cast_data_types parse_date astype df0 (pre ++ (c, t) :: post) in
  (exists e, raised out = Some e)
  /\ printed_lines out = []
  /\ ((forall c' t', (c', t') ∈ pre ->
         exists s s', getitem df0 c' = Ok s /\ cast_value parse_date astype t' s = Ok s') ->
      NoDup pre.*1 ->
      raised out = Some (KeyError c)).
Proof.
  intros Hc out.
  destruct (cast_loop_unknown_column (pre ++ (c, t) :: post) df0 c t) as [e He].
  { apply elem_of_app. right. by left. }
  { done. }
  assert (Hout : raised out = Some e /\ printed_lines out = []).
  { unfold out, cast_data_types.
    destruct (cast_loop _ _ _ _) as [df' [e'|]]; simpl in He; [|done].
    by injection He as ->. }
  destruct Hout as [Hr Hp]. split; [by exists e|]. split; [done|].
  intros Hok Hnd.
  destruct (cast_loop_prefix parse_date astype pre df0 Hnd Hok) as (df1 & Hrest & _ & _).
  pose proof (cast_loop_columns pre df0) as Hcols.
  specialize (Hrest []) as Hnil. rewrite app_nil_r in Hnil. cbn [cast_loop] in Hnil.
  rewrite Hnil in Hcols. cbn [fst] in Hcols.
  unfold out, cast_data_types. rewrite Hrest. cbn [cast_loop]. unfold cast_column.
  rewrite getitem_absent by (by rewrite Hcols). done.
Qed.



End CastingSection.

Lemma cast_unknown_column_witness :
  let out := cast_data_types Examples.parse_two_dates Examples.astype_float_or_string
               Examples.reviews
               [("review_score", "float64"); ("rating", "float64"); ("city", "string")] in
  raised out = Some (KeyError "rating") /\ printed_lines out = [].
Proof.
  intros out.
  destruct (cast_unknown_column Examples.parse_two_dates Examples.astype_float_or_string
              Examples.reviews [("review_score", "float64")] [("city", "string")]
              "rating" "float64") as (_ & H2 & H3).
  - apply (bool_decide_unpack _). by vm_compute.
  - split; [|exact H2]. apply H3.
    + intros c t [[= -> ->]|[]%elem_of_nil]%elem_of_cons.
      eexists _, _. split; by vm_compute.
    + apply (bool_decide_unpack _). by vm_compute.
Defined.


(** ** generate_report: a table without rows *)

Section ReportSection.

Variables year month dayofweek hour quarter days : Z -> Z.
Variable corr : Series -> Series -> flt.
Variable Pivot : Type.
Variable pivot_mean : DataFrame -> string -> string -> string -> result Pivot.
Variables bivariate_datetime_analysis bivariate_analysis : EDA_Pipeline -> result unit.

(** The report of a table without rows that has a numerical feature stops
    in the numerical section with [ZeroDivisionError], after the overview
    and the datetime section: the categorical section, the correlations
    and the sections on the target are never reached, whatever they would
    do. *)
Theorem report_without_rows (parse_date : cell -> option Z)
    (df0 : DataFrame) (target : option string) (ct hct : Z) :
  NoDup (columns df0) -> len df0 = 0%nat ->
  (forall t, 0 <= dayofweek t <= 6) ->
  let self := __init__ parse_date df0 target ct hct in
  numerical_cols self <> [] ->
  generate_report year month dayofweek hour quarter days corr Pivot pivot_mean
    bivariate_datetime_analysis bivariate_analysis self
  = Raise ZeroDivisionError.
Proof.
  intros Hnd Hlen Hdow self Hnum. unfold generate_report.
  assert (Hdt : exists ps,
            univariate_datetime year month dayofweek hour quarter days self = Ok ps
            /\ map dp_col ps = datetime_cols self).
  { unfold univariate_datetime. apply mapM_labels.
    intros col Hcol. pose proof Hcol as (s & Hin & Hq)%elem_of_datetime_cols.
    apply (datetime_profile_exists _ _ _ _ _ _ self col (coerced parse_date s));
      [|by apply coerced_dtype|done].
    by apply init_getitem. }
  destruct Hdt as (ps & -> & _). cbn [bind].
  unfold univariate_numerical.
  destruct (numerical_cols self) as [|col cols] eqn:E; [done|].
  assert (Hcol : col ∈ numerical_cols self) by (rewrite E; by left).
  apply elem_of_numerical_cols_1 in Hcol as (_ & s & Hin & _).
  cbn [mapM]. unfold numerical_profile at 1, self.
  rewrite (init_getitem _ _ _ _ _ _ s) by done. cbn [bind].
  by rewrite init_len, Hlen, decide_True.
Qed.

End ReportSection.

Lemma report_without_rows_witness :
  generate_report Examples.toy_year Examples.toy_month Examples.toy_dayofweek
    Examples.toy_hour Examples.toy_quarter Examples.toy_days Examples.no_corr
    unit Examples.unit_pivot (fun _ => Ok tt) (fun _ => Ok tt)
    (__init__ Examples.parse_two_dates Examples.no_rows None 2 100)
  = Raise ZeroDivisionError.
Proof.
  apply (report_without_rows Examples.toy_year Examples.toy_month Examples.toy_dayofweek
           Examples.toy_hour Examples.toy_quarter Examples.toy_days Examples.no_corr
           unit Examples.unit_pivot (fun _ => Ok tt) (fun _ => Ok tt)
           Examples.parse_two_dates Examples.no_rows None 2 100).
  - exact no_rows_labels_unique.
  - reflexivity.
  - exact (proj1 toy_calendar_ranges).
  - by vm_compute.
Defined.
